(** * Dimensional Cortex browser extension: capture-and-relay pipeline

    A shallow embedding of the three scripts of the Chrome extension

      - [content_script.js]  (page context: control listener, platform
        detection, context extraction, [sendToCortex], mutation observer),
      - [background.js]      (background context: relay listener),
      - [popup.js]           (control surface: the "ping" button),

    followed by the properties of the capture-and-relay pipeline.

    Conventions of the model.
      - JavaScript strings are [string]s; [toLowerCase] is the ASCII case
        mapping.
      - Values that cross a message or JSON boundary are [JsVal]s; a field
        that is absent from an object reads as [JUndefined].
      - The DOM is a finite tree of element, text and comment nodes; the
        selectors used by the scripts are the three shapes [.class],
        [[attr]] and [[attr="value"]].
      - What the browser supplies (location, clock, document, the outcome of
        a network call) is an explicit argument.
      - Effectful code runs in the monad [Eff]: it reads the network oracle,
        appends to a trace of effects and completes normally or abruptly.
        [console] output is not part of the trace. *)

From Stdlib Require Import Bool Ascii String List ZArith Lia DecimalString DecimalZ.
Import ListNotations.
Open Scope string_scope.
Open Scope list_scope.

Set Implicit Arguments.
Set Warnings "-register-all".

(* ------------------------------------------------------------------ *)
(** ** JavaScript strings *)

Module JsString.

(** [String.prototype.includes]: [needle] occurs somewhere in [hay]. *)
Fixpoint includes (needle hay : string) : bool :=
  if String.prefix needle hay then true
  else match hay with
       | EmptyString => false
       | String _ rest => includes needle rest
       end.

Definition lowerChar (c : ascii) : ascii :=
  let n := nat_of_ascii c in
  if andb (Nat.leb 65 n) (Nat.leb n 90) then ascii_of_nat (n + 32) else c.

(** [String.prototype.toLowerCase] on ASCII text. *)
Fixpoint toLowerCase (s : string) : string :=
  match s with
  | EmptyString => EmptyString
  | String c rest => String (lowerChar c) (toLowerCase rest)
  end.

Definition isEmpty (s : string) : bool :=
  match s with EmptyString => true | _ => false end.

(** Drop the first [n] characters. *)
Fixpoint drop (n : nat) (s : string) : string :=
  match n, s with
  | O, _ => s
  | S _, EmptyString => EmptyString
  | S k, String _ rest => drop k rest
  end.

(** Decimal rendering of an integer, as a template literal does. *)
Definition ofZ (z : Z) : string := NilZero.string_of_int (Z.to_int z).

End JsString.

(* ------------------------------------------------------------------ *)
(** ** JavaScript values that travel in messages and JSON bodies *)

Inductive JsVal : Type :=
| JUndefined
| JNull
| JBool (b : bool)
| JNum (z : Z)
| JStr (s : string)
| JArr (items : list JsVal)
| JObj (fields : list (string * JsVal)).

(** ToBoolean. *)
Definition truthy (v : JsVal) : bool :=
  match v with
  | JUndefined | JNull => false
  | JBool b => b
  | JNum z => negb (Z.eqb z 0)
  | JStr s => negb (JsString.isEmpty s)
  | JArr _ | JObj _ => true
  end.

(** [v === "lit"] for a string literal. *)
Definition strictEqStr (v : JsVal) (lit : string) : bool :=
  match v with
  | JStr s => String.eqb s lit
  | _ => false
  end.

Fixpoint assoc {A : Type} (k : string) (l : list (string * A)) : option A :=
  match l with
  | [] => None
  | (k', v) :: rest => if String.eqb k k' then Some v else assoc k rest
  end.

(** Property read [o.k]: [undefined] when the property is absent. *)
Definition getField (o : JsVal) (k : string) : JsVal :=
  match o with
  | JObj fields => match assoc k fields with Some v => v | None => JUndefined end
  | _ => JUndefined
  end.

(* ------------------------------------------------------------------ *)
(** ** The DOM *)

Inductive Node : Type :=
| Elem (tag : string) (classList : list string)
       (attrs : list (string * string)) (childNodes : list Node)
| TextNode (data : string)
| CommentNode (data : string).

Inductive Selector : Type :=
| SelClass (c : string)                (* .c          *)
| SelHasAttr (a : string)              (* [a]         *)
| SelAttrEq (a : string) (v : string). (* [a="v"]     *)

Module Dom.

Definition nodeType (n : Node) : Z :=
  match n with
  | Elem _ _ _ _ => 1
  | TextNode _ => 3
  | CommentNode _ => 8
  end%Z.

(** Text contributed by a node to the [textContent] of an ancestor. *)
Fixpoint descendantText (n : Node) : string :=
  match n with
  | Elem _ _ _ cs => fold_right (fun c acc => String.append (descendantText c) acc) "" cs
  | TextNode d => d
  | CommentNode _ => ""
  end.

(** [node.textContent]. *)
Definition textContent (n : Node) : string :=
  match n with
  | Elem _ _ _ _ => descendantText n
  | TextNode d => d
  | CommentNode d => d
  end.

(** Descendants in document order, the node itself excluded. *)
Fixpoint descendants (n : Node) : list Node :=
  match n with
  | Elem _ _ _ cs => flat_map (fun c => c :: descendants c) cs
  | _ => []
  end.

(** [element.getAttribute(a)]; [None] is [null]. *)
Definition getAttribute (n : Node) (a : string) : option string :=
  match n with
  | Elem _ _ attrs _ => assoc a attrs
  | _ => None
  end.

(** [element.matches(sel)]. *)
Definition matches (sel : Selector) (n : Node) : bool :=
  match n with
  | Elem _ cls attrs _ =>
      match sel with
      | SelClass c => existsb (String.eqb c) cls
      | SelHasAttr a =>
          match assoc a attrs with Some _ => true | None => false end
      | SelAttrEq a v =>
          match assoc a attrs with
          | Some v' => String.eqb v' v
          | None => false
          end
      end
  | _ => false
  end.

(** [element.querySelector(sel)]: first matching descendant. *)
Definition querySelector (sel : Selector) (n : Node) : option Node :=
  find (matches sel) (descendants n).

(** [document.querySelectorAll(sel)], [root] being the document element. *)
Definition querySelectorAll (sel : Selector) (root : Node) : list Node :=
  filter (matches sel) (root :: descendants root).

End Dom.

(* ------------------------------------------------------------------ *)
(** ** What the browser supplies to the page context *)

Record Location : Type := mkLocation {
  href : string;
  hostname : string;
  pathname : string
}.

Record Page : Type := mkPage {
  location : Location;
  isoNow : string;      (* new Date().toISOString() *)
  dateNow : Z;          (* Date.now() *)
  document : Node       (* the document element *)
}.

(* ------------------------------------------------------------------ *)
(** ** Effects: network, trace, abrupt completion *)

Record HttpRequest : Type := mkRequest {
  req_url : string;
  req_method : string;
  req_headers : list (string * string);
  req_body : JsVal      (* the value handed to JSON.stringify *)
}.

Record Response : Type := mkResponse {
  status : Z;
  bodyJson : option JsVal   (* what response.json() parses; None: it rejects *)
}.

(** [response.ok]. *)
Definition ok (r : Response) : bool :=
  andb (Z.leb 200 (status r)) (Z.leb (status r) 299).

Inductive FetchOutcome : Type :=
| NetworkFailure
| Responded (r : Response).

Definition Network : Type := HttpRequest -> FetchOutcome.

Inductive Effect : Type :=
| Fetch (req : HttpRequest)           (* fetch(url, init) *)
| SendResponse (reply : JsVal)        (* sendResponse(reply) *)
| RuntimeSendMessage (msg : JsVal)    (* chrome.runtime.sendMessage(msg, cb) *)
| SetStatus (text : string)           (* statusEl.textContent = text *)
| ReportError (e : string).           (* an exception that reached the host *)

Inductive Completion (A : Type) : Type :=
| Normal (a : A)
| Throw (e : string).

Arguments Normal {A} a.
Arguments Throw {A} e.

Definition Eff (A : Type) : Type := Network -> list Effect * Completion A.

Module EffMonad.

Definition ret {A} (a : A) : Eff A := fun _ => ([], Normal a).

Definition throw {A} (e : string) : Eff A := fun _ => ([], Throw e).

Definition bind {A B} (m : Eff A) (k : A -> Eff B) : Eff B :=
  fun net =>
    match m net with
    | (t1, Normal a) => let (t2, c) := k a net in (t1 ++ t2, c)
    | (t1, Throw e) => (t1, Throw e)
    end.

(** [try { m } catch (e) { h e }]. *)
Definition try_catch {A} (m : Eff A) (h : string -> Eff A) : Eff A :=
  fun net =>
    match m net with
    | (t1, Normal a) => (t1, Normal a)
    | (t1, Throw e) => let (t2, c) := h e net in (t1 ++ t2, c)
    end.

Definition emit (e : Effect) : Eff unit := fun _ => ([e], Normal tt).

(** [fetch]: the request goes out; the promise rejects on a network
    failure and otherwise fulfils with the response, whatever its status. *)
Definition fetch (req : HttpRequest) : Eff Response :=
  fun net =>
    ([Fetch req],
     match net req with
     | NetworkFailure => Throw "TypeError: Failed to fetch"
     | Responded r => Normal r
     end).

(** [response.json()]. *)
Definition json (r : Response) : Eff JsVal :=
  match bodyJson r with
  | Some v => ret v
  | None => throw "SyntaxError"
  end.

(** A promise that is started and not awaited: its effects happen, its
    settlement is dropped. *)
Definition spawn {A} (m : Eff A) : Eff unit :=
  fun net => (fst (m net), Normal tt).

(** [xs.forEach(f)]: an exception thrown by [f] ends the iteration. *)
Fixpoint forEach {A} (xs : list A) (f : A -> Eff unit) : Eff unit :=
  match xs with
  | [] => ret tt
  | x :: rest => bind (f x) (fun _ => forEach rest f)
  end.

End EffMonad.

Import EffMonad.

Notation "x <- m ;; k" := (bind m (fun x => k))
  (at level 61, m at next level, right associativity).
Notation "m ;;; k" := (bind m (fun _ => k))
  (at level 61, right associativity).

Definition trace {A} (r : list Effect * Completion A) : list Effect := fst r.
Definition completion {A} (r : list Effect * Completion A) : Completion A := snd r.

Definition isRuntimeSendMessage (e : Effect) : bool :=
  match e with RuntimeSendMessage _ => true | _ => false end.

(** The requests among a trace, in order. *)
Fixpoint requests (t : list Effect) : list HttpRequest :=
  match t with
  | [] => []
  | Fetch r :: rest => r :: requests rest
  | _ :: rest => requests rest
  end.

(** The replies among a trace, in order. *)
Fixpoint replies (t : list Effect) : list JsVal :=
  match t with
  | [] => []
  | SendResponse r :: rest => r :: replies rest
  | _ :: rest => replies rest
  end.

(* ------------------------------------------------------------------ *)
(** ** content_script.js *)

Record PageState : Type := mkPageState {
  isCapturing : JsVal
}.

(** [let isCapturing = false;] *)
Definition initialPageState : PageState := {| isCapturing := JBool false |}.

Definition CORTEX_SERVER : string := "http://localhost:5000".

(** The listener registered for messages from the popup. State is passed
    explicitly; the listener returns [undefined]. *)
Definition controlListener (st : PageState) (request : JsVal)
  : PageState * list Effect :=
  if strictEqStr (getField request "action") "toggle" then
    ({| isCapturing := getField request "enabled" |},
     [SendResponse (JObj [("status", JStr "ok")])])
  else (st, []).

(** [detectPlatform], reading [window.location.hostname]. *)
Definition detectPlatform (w : Location) : string :=
  let hostname := hostname w in
  if JsString.includes "chat.openai.com" hostname then "chatgpt"
  else if JsString.includes "claude.ai" hostname then "claude"
  else if JsString.includes "perplexity.ai" hostname then "perplexity"
  else "unknown".

Record Message : Type := mkMessage {
  role : JsVal;
  content : string
}.

Record Context : Type := mkContext {
  platform : string;
  url : string;
  timestamp : string;
  conversation_id : JsVal;
  messages : list Message
}.

(** The character class [[a-zA-Z0-9-]]. *)
Definition isIdChar (c : ascii) : bool :=
  let n := nat_of_ascii c in
  (Nat.leb 97 n && Nat.leb n 122) || (Nat.leb 65 n && Nat.leb n 90)
  || (Nat.leb 48 n && Nat.leb n 57) || Nat.eqb n 45.

(** The longest prefix made of identifier characters (greedy [+]). *)
Fixpoint takeId (s : string) : string :=
  match s with
  | EmptyString => EmptyString
  | String c rest => if isIdChar c then String c (takeId rest) else EmptyString
  end.

(** The pattern [\/c\/([a-zA-Z0-9-]+)] tried at the start of [s]: the
    capture group, or the empty string when there is no match there (a
    match never captures the empty string). *)
Definition captureAt (s : string) : string :=
  if String.prefix "/c/" s then takeId (JsString.drop 3 s) else "".

(** [s.match(/\/c\/([a-zA-Z0-9-]+)/)], reduced to its capture group:
    the leftmost position where the pattern matches, and the longest run
    of identifier characters there. [None] is the [null] of no match. *)
Fixpoint matchConversationId (s : string) : option string :=
  match s with
  | EmptyString => None
  | String _ rest =>
      if JsString.isEmpty (captureAt s) then matchConversationId rest
      else Some (captureAt s)
  end.

Definition sel_author_role : Selector := SelHasAttr "data-message-author-role".
Definition sel_markdown : Selector := SelClass "markdown".
Definition sel_message : Selector := SelAttrEq "data-testid" "message".
Definition sel_message_sender : Selector := SelAttrEq "data-testid" "message-sender".
Definition sel_message_text : Selector := SelAttrEq "data-testid" "message-text".
Definition sel_prose : Selector := SelClass "prose".

(** [el?.textContent || dflt]. *)
Definition textOr (el : option Node) (dflt : string) : string :=
  match el with
  | Some e =>
      let t := Dom.textContent e in
      if JsString.isEmpty t then dflt else t
  | None => dflt
  end.

(** Body of the [forEach] of the chatgpt branch: the messages it pushes. *)
Definition chatgptMessage (msg : Node) : list Message :=
  let role :=
    match Dom.getAttribute msg "data-message-author-role" with
    | Some r => JStr r
    | None => JNull
    end in
  let content := textOr (Dom.querySelector sel_markdown msg) "" in
  if negb (JsString.isEmpty content) then
    [{| role := role; content := content |}]
  else [].

(** Body of the [forEach] of the claude branch. *)
Definition claudeMessage (msg : Node) : list Message :=
  let role :=
    match Dom.querySelector sel_message_sender msg with
    | Some e =>
        let t := JsString.toLowerCase (Dom.textContent e) in
        if JsString.isEmpty t then "unknown" else t
    | None => "unknown"
    end in
  let content := textOr (Dom.querySelector sel_message_text msg) "" in
  if negb (JsString.isEmpty content) then
    [{| role := if JsString.includes "you" role
                then JStr "user" else JStr "assistant";
        content := content |}]
  else [].

(** [context.conversation_id = v]. *)
Definition set_conversation_id (c : Context) (v : JsVal) : Context :=
  {| platform := platform c;
     url := url c;
     timestamp := timestamp c;
     conversation_id := v;
     messages := messages c |}.

(** [context.messages.push(m)] for each [m] of [ms], in order. *)
Definition push_messages (c : Context) (ms : list Message) : Context :=
  {| platform := platform c;
     url := url c;
     timestamp := timestamp c;
     conversation_id := conversation_id c;
     messages := messages c ++ ms |}.

(** [extractConversationContext(platform)]. *)
Definition extractConversationContext (page : Page) (platform : string)
  : Context :=
  let context :=
    {| platform := platform;
       url := href (location page);
       timestamp := isoNow page;
       conversation_id := JNull;
       messages := [] |} in
  let urlMatch := matchConversationId (pathname (location page)) in
  let context :=
    set_conversation_id context
      match urlMatch with
      | Some id => JStr id
      | None => JStr (String.append "conv_" (JsString.ofZ (dateNow page)))
      end in
  if String.eqb platform "chatgpt" then
    push_messages context
      (flat_map chatgptMessage
                (Dom.querySelectorAll sel_author_role (document page)))
  else if String.eqb platform "claude" then
    push_messages context
      (flat_map claudeMessage
                (Dom.querySelectorAll sel_message (document page)))
  else context.

Definition messageToJs (m : Message) : JsVal :=
  JObj [("role", role m); ("content", JStr (content m))].

(** The context object as the value serialised into a request body. *)
Definition contextToJs (c : Context) : JsVal :=
  JObj [("platform", JStr (platform c));
        ("url", JStr (url c));
        ("timestamp", JStr (timestamp c));
        ("conversation_id", conversation_id c);
        ("messages", JArr (map messageToJs (messages c)))].

Definition ingestRequest (data : Context) : HttpRequest :=
  {| req_url := String.append CORTEX_SERVER "/ingest";
     req_method := "POST";
     req_headers := [("Content-Type", "application/json")];
     req_body := contextToJs data |}.

(** [sendToCortex(data)]: the value its promise fulfils with. *)
Definition sendToCortex (data : Context) : Eff JsVal :=
  try_catch
    (response <- fetch (ingestRequest data) ;;
     if negb (ok response) then
       throw (String.append "Server returned " (JsString.ofZ (status response)))
     else
       result <- json response ;;
       ret result)
    (fun _error => ret JNull).

(** The [selectors] object of the observer callback. *)
Definition selectors : list (string * Selector) :=
  [("chatgpt", sel_markdown);
   ("claude", sel_message_text);
   ("perplexity", sel_prose)].

Record MutationRecord : Type := mkMutation {
  addedNodes : list Node
}.

(** [node.querySelector(selector) ||
     (node.matches && node.matches(selector) ? node : null)]. *)
Definition responseElementOf (selector : Selector) (node : Node)
  : option Node :=
  match Dom.querySelector selector node with
  | Some e => Some e
  | None => if Dom.matches selector node then Some node else None
  end.

Section Watcher.

(** The marker test and the extractor are parameters of the callback, so
    that a fault inside either of them can be expressed. *)
Variable matchNode : Selector -> Node -> Eff (option Node).
Variable extract : Page -> string -> Eff Context.

(** The [MutationObserver] callback. *)
Definition observerCallbackWith (st : PageState) (page : Page)
  (mutations : list MutationRecord) : Eff unit :=
  if negb (truthy (isCapturing st)) then ret tt
  else
    let platform := detectPlatform (location page) in
    match assoc platform selectors with
    | None => ret tt
    | Some selector =>
        forEach mutations (fun mutation =>
          forEach (addedNodes mutation) (fun node =>
            if Z.eqb (Dom.nodeType node) 1 then
              responseElement <- matchNode selector node ;;
              match responseElement with
              | Some _ =>
                  context <- extract page platform ;;
                  spawn (sendToCortex context)
              | None => ret tt
              end
            else ret tt))
    end.

(** What the page context reacts to: a message on the control channel, or
    a batch of mutation records delivered to the observer (with the page
    and the network as they are at that moment). *)
Inductive PageEvent : Type :=
| ControlMessage (request : JsVal)
| MutationBatch (page : Page) (net : Network) (mutations : list MutationRecord).

(** One turn of the page context. The observer is registered once, by
    [observer.observe(document.body, ...)], and the script never
    disconnects it; an exception that leaves the callback is reported by
    the host, which then goes on delivering. *)
Definition pageStepWith (st : PageState) (ev : PageEvent)
  : PageState * list Effect :=
  match ev with
  | ControlMessage request => controlListener st request
  | MutationBatch page net mutations =>
      match observerCallbackWith st page mutations net with
      | (t, Normal _) => (st, t)
      | (t, Throw e) => (st, t ++ [ReportError e])
      end
  end.

Fixpoint pageRunWith (st : PageState) (evs : list PageEvent)
  : PageState * list Effect :=
  match evs with
  | [] => (st, [])
  | ev :: rest =>
      let (st1, t1) := pageStepWith st ev in
      let (st2, t2) := pageRunWith st1 rest in
      (st2, t1 ++ t2)
  end.

End Watcher.

(** The marker test of the script, which cannot fault. *)
Definition plainMatch (selector : Selector) (node : Node) : Eff (option Node) :=
  ret (responseElementOf selector node).

(** The extractor of the script, which cannot fault. *)
Definition plainExtract (page : Page) (platform : string) : Eff Context :=
  ret (extractConversationContext page platform).

(** The callback as the script has it: both steps are the total functions
    above. *)
Definition observerCallback
  : PageState -> Page -> list MutationRecord -> Eff unit :=
  observerCallbackWith plainMatch plainExtract.

Definition pageStep : PageState -> PageEvent -> PageState * list Effect :=
  pageStepWith plainMatch plainExtract.

Definition pageRun : PageState -> list PageEvent -> PageState * list Effect :=
  pageRunWith plainMatch plainExtract.

(** A node of a batch that makes the callback extract and send. *)
Definition qualifyingNode (selector : Selector) (node : Node) : bool :=
  Z.eqb (Dom.nodeType node) 1 &&
  match responseElementOf selector node with Some _ => true | None => false end.

(** The added nodes of a batch, in the order the callback visits them. *)
Definition batchNodes (mutations : list MutationRecord) : list Node :=
  flat_map addedNodes mutations.

(** A batch qualifies on a page when the page is a supported platform and
    some added node is, or contains, a response marker of that platform. *)
Definition qualifying (page : Page) (mutations : list MutationRecord) : bool :=
  match assoc (detectPlatform (location page)) selectors with
  | Some selector => existsb (qualifyingNode selector) (batchNodes mutations)
  | None => false
  end.

(* ------------------------------------------------------------------ *)
(** ** background.js *)

Definition processInteractionRequest (serverPayload : JsVal) : HttpRequest :=
  {| req_url := "http://127.0.0.1:8000/process_interaction";
     req_method := "POST";
     req_headers := [("Content-Type", "application/json")];
     req_body := serverPayload |}.

Definition replyOk (data : JsVal) : JsVal :=
  JObj [("status", JStr "ok"); ("data", data)].

Definition replyError : JsVal := JObj [("status", JStr "error")].

(** [serverPayload] of the [enrichPrompt] branch. *)
Definition serverPayload (request : JsVal) : JsVal :=
  JObj [("text", getField request "text");
        ("platform", JStr "ChromeExtension_v2")].

(** [fetch(...).then(r => r.json()).then(data => sendResponse(ok))
              .catch(error => sendResponse(error))]. *)
Definition enrichPromptChain (request : JsVal) : Eff unit :=
  try_catch
    (response <- fetch (processInteractionRequest (serverPayload request)) ;;
     data <- json response ;;
     emit (SendResponse (replyOk data)))
    (fun _error => emit (SendResponse replyError)).

(** [null] and [undefined] are the values that have no properties. *)
Definition isNullish (v : JsVal) : bool :=
  match v with
  | JUndefined | JNull => true
  | _ => false
  end.

Definition nullishError (v : JsVal) : string :=
  match v with
  | JNull => "TypeError: Cannot read properties of null"
  | _ => "TypeError: Cannot read properties of undefined"
  end.

(** The property read [o.k] as an evaluation step: it throws a
    [TypeError] when [o] is [null] or [undefined], and reads [undefined]
    for a property that is absent. *)
Definition readProperty (o : JsVal) (k : string) : Eff JsVal :=
  if isNullish o then throw (nullishError o) else ret (getField o k).

(** The listener of the background context; its result is the value the
    listener returns ([true] keeps the reply channel open). A message that
    is [null] or [undefined] makes the first read of [request.action]
    throw. *)
Definition backgroundListener (request : JsVal) : Eff JsVal :=
  action <- readProperty request "action" ;;
  if strictEqStr action "enrichPrompt" then
    spawn (enrichPromptChain request) ;;;
    ret (JBool true)
  else
    action' <- readProperty request "action" ;;
    if strictEqStr action' "pingServer" then
      ret (JBool true)
    else ret JUndefined.

(* ------------------------------------------------------------------ *)
(** ** popup.js *)

Definition pingMessage : JsVal :=
  JObj [("action", JStr "pingServer");
        ("text", JStr "This is a test from the extension")].

(** The click handler of the test button. *)
Definition popupClick : list Effect :=
  [SetStatus "Pinging..."; RuntimeSendMessage pingMessage].

(** The callback passed to [sendMessage]. *)
Definition popupCallback (response : JsVal) : list Effect :=
  if truthy response && strictEqStr (getField response "status") "ok" then
    [SetStatus "Success!"]
  else [SetStatus "Error!"].

(* ------------------------------------------------------------------ *)
(** ** Specification-level definitions *)

(** The registry of known hosts, as (tag, host) pairs in lookup order. *)
Definition knownHosts : list (string * string) :=
  [("chatgpt", "chat.openai.com");
   ("claude", "claude.ai");
   ("perplexity", "perplexity.ai")].

(** [identify] as the specification words it: the tag of the first
    registry entry whose host occurs in the address host, [unknown] when
    there is none. *)
Definition identify (host : string) : string :=
  match find (fun e => JsString.includes (snd e) host) knownHosts with
  | Some e => fst e
  | None => "unknown"
  end.

(** [s] has an occurrence of ["/c/"] followed by an identifier character. *)
Definition hasIdSegment (s : string) : Prop :=
  exists pre c post,
    s = (pre ++ "/c/" ++ String c post)%string /\ isIdChar c = true.

(** Every character of [s] is an identifier character. *)
Fixpoint allIdChars (s : string) : bool :=
  match s with
  | EmptyString => true
  | String c rest => isIdChar c && allIdChars rest
  end.

(** [s] does not begin with an identifier character. *)
Definition stopsId (s : string) : bool :=
  match s with
  | EmptyString => true
  | String c _ => negb (isIdChar c)
  end.

(** The effects of one batch while capture is on: one ingest request,
    carrying the snapshot of the whole page, per qualifying added node. *)
Definition captureTrace (page : Page) (mutations : list MutationRecord)
  : list Effect :=
  let platform := detectPlatform (location page) in
  match assoc platform selectors with
  | Some selector =>
      map (fun _ : Node =>
             Fetch (ingestRequest (extractConversationContext page platform)))
          (filter (qualifyingNode selector) (batchNodes mutations))
  | None => []
  end.

(** The acknowledgment the control listener sends. *)
Definition ackOk : JsVal := JObj [("status", JStr "ok")].

(** The request is a control message the page context acts on. *)
Definition isToggle (request : JsVal) : bool :=
  strictEqStr (getField request "action") "toggle".

Definition isToggleEvent (ev : PageEvent) : bool :=
  match ev with
  | ControlMessage request => isToggle request
  | MutationBatch _ _ _ => false
  end.

(** The event is a toggle that switches capture on. *)
Definition turnsOn (ev : PageEvent) : bool :=
  match ev with
  | ControlMessage request =>
      isToggle request && truthy (getField request "enabled")
  | MutationBatch _ _ _ => false
  end.


(* ------------------------------------------------------------------ *)
(** ** Concrete pages, networks and batches *)

Module Sample.

(** The address [https://claude.ai/chat/xyz789]. *)
Definition claudeLocation : Location :=
  {| href := "https://claude.ai/chat/xyz789";
     hostname := "claude.ai";
     pathname := "/chat/xyz789" |}.

(** The address [https://chat.openai.com/c/xyz789]. *)
Definition chatgptLocation : Location :=
  {| href := "https://chat.openai.com/c/xyz789";
     hostname := "chat.openai.com";
     pathname := "/c/xyz789" |}.

(** The address [https://www.perplexity.ai/search/q1]. *)
Definition perplexityLocation : Location :=
  {| href := "https://www.perplexity.ai/search/q1";
     hostname := "www.perplexity.ai";
     pathname := "/search/q1" |}.

(** The address [https://claude.ai.chat.openai.com/]. *)
Definition twoHostsLocation : Location :=
  {| href := "https://claude.ai.chat.openai.com/";
     hostname := "claude.ai.chat.openai.com";
     pathname := "/" |}.

(** The address [https://example.org/]. *)
Definition otherLocation : Location :=
  {| href := "https://example.org/";
     hostname := "example.org";
     pathname := "/" |}.

(** A claude message element: sender marker "Claude", text "Hello world". *)
Definition claudeMessageNode : Node :=
  Elem "div" [] [("data-testid", "message")]
    [Elem "span" [] [("data-testid", "message-sender")] [TextNode "Claude"];
     Elem "div" [] [("data-testid", "message-text")] [TextNode "Hello world"]].

(** A chatgpt message element whose author role is "system". *)
Definition systemMessageNode : Node :=
  Elem "div" [] [("data-message-author-role", "system")]
    [Elem "div" ["markdown"] [] [TextNode "Be brief."]].

(** A chatgpt answer element that is not inside a message element. *)
Definition strayMarkdownNode : Node :=
  Elem "div" ["markdown"] [] [TextNode "Thinking"].

(** A node that is itself an answer element and has two answer elements
    below it, after an unmarked one. *)
Definition twoAnswersNode : Node :=
  Elem "div" ["markdown"] []
    [Elem "span" [] [] [TextNode "intro"];
     Elem "p" ["markdown"] [] [TextNode "first"];
     Elem "p" ["markdown"] [] [TextNode "second"]].

(** A perplexity answer element. *)
Definition proseNode : Node :=
  Elem "div" ["prose"] [] [TextNode "An answer."].

Definition documentOf (body : list Node) : Node :=
  Elem "html" [] [] [Elem "body" [] [] body].

Definition pageOf (w : Location) (body : list Node) : Page :=
  {| location := w;
     isoNow := "2024-01-01T00:00:00.000Z";
     dateNow := 1704067200000;
     document := documentOf body |}.

Definition claudePage : Page := pageOf claudeLocation [claudeMessageNode].
Definition chatgptPage : Page := pageOf chatgptLocation [systemMessageNode].
Definition perplexityPage : Page := pageOf perplexityLocation [proseNode].
Definition otherPage : Page := pageOf otherLocation [proseNode].

(** A claude message element whose sender marker reads "Moderator". *)
Definition moderatorMessageNode : Node :=
  Elem "div" [] [("data-testid", "message")]
    [Elem "span" [] [("data-testid", "message-sender")] [TextNode "Moderator"];
     Elem "div" [] [("data-testid", "message-text")] [TextNode "Stay on topic."]].

Definition batchOf (nodes : list Node) : list MutationRecord :=
  [{| addedNodes := nodes |}].

Definition capturing : PageState := {| isCapturing := JBool true |}.

(** The ingestion service is not reachable. *)
Definition netDown : Network := fun _ => NetworkFailure.

(** The service answers 200 with a JSON acknowledgment. *)
Definition netOk : Network :=
  fun _ => Responded {| status := 200;
                        bodyJson := Some (JObj [("ack", JBool true)]) |}.

(** The service answers 500 with a JSON error document. *)
Definition net500 : Network :=
  fun _ => Responded {| status := 500;
                        bodyJson := Some (JObj [("error", JStr "boom")]) |}.

(** The service answers 200 with a body that is not JSON. *)
Definition netGarbled : Network :=
  fun _ => Responded {| status := 200; bodyJson := None |}.

Definition toggleMessage (enabled : bool) : JsVal :=
  JObj [("action", JStr "toggle"); ("enabled", JBool enabled)].

Definition enrichMessage (text : string) : JsVal :=
  JObj [("action", JStr "enrichPrompt"); ("text", JStr text)].

End Sample.

(* ================================================================== *)
(** * Properties *)

(* ------------------------------------------------------------------ *)
(** ** The effect monad *)

Section EffLemmas.

Context {A : Type}.

(** A loop whose body never throws performs the effects of its
    iterations, in order, and completes normally. *)
Lemma forEach_total (g : A -> list Effect) (f : A -> Eff unit) (net : Network)
  (xs : list A) :
  (forall x, In x xs -> f x net = (g x, Normal tt)) ->
  forEach xs f net = (flat_map g xs, Normal tt).
Proof.
  induction xs as [|x rest IH]; intros Hf.
  - reflexivity.
  - cbn [forEach flat_map]. unfold bind.
    rewrite (Hf x (or_introl eq_refl)).
    rewrite IH by (intros y Hy; apply Hf; right; exact Hy).
    reflexivity.
Qed.

End EffLemmas.

Lemma flat_map_nested {A B C : Type} (f : A -> list B) (g : B -> list C)
  (l : list A) :
  flat_map (fun x => flat_map g (f x)) l = flat_map g (flat_map f l).
Proof.
  induction l as [|x l IH]; cbn.
  - reflexivity.
  - rewrite flat_map_app, IH. reflexivity.
Qed.

Lemma flat_map_guard {A B : Type} (p : A -> bool) (h : A -> B) (l : list A) :
  flat_map (fun x => if p x then [h x] else []) l = map h (filter p l).
Proof.
  induction l as [|x l IH]; cbn.
  - reflexivity.
  - destruct (p x); cbn; rewrite IH; reflexivity.
Qed.

Lemma requests_map_Fetch {A : Type} (h : A -> HttpRequest) (l : list A) :
  requests (map (fun x => Fetch (h x)) l) = map h l.
Proof.
  induction l as [|x l IH]; cbn; [reflexivity | rewrite IH; reflexivity].
Qed.

(* ------------------------------------------------------------------ *)
(** ** sendToCortex *)

(** Whatever the network does, [sendToCortex] issues exactly the ingest
    request and its promise never rejects. *)
Lemma sendToCortex_trace (data : Context) (net : Network) :
  trace (sendToCortex data net) = [Fetch (ingestRequest data)] /\
  exists v, completion (sendToCortex data net) = Normal v.
Proof.
  unfold sendToCortex, try_catch, bind, fetch, json, throw, ret, trace, completion.
  destruct (net (ingestRequest data)) as [|r]; cbn.
  - split; [reflexivity | eexists; reflexivity].
  - destruct (ok r); cbn.
    + destruct (bodyJson r); cbn; split; try reflexivity; eexists; reflexivity.
    + split; [reflexivity | eexists; reflexivity].
Qed.

(** The value [sendToCortex] resolves to: the parsed body on a 2xx
    response with a parseable body, [null] otherwise. *)
Lemma sendToCortex_value (data : Context) (net : Network) :
  completion (sendToCortex data net) =
  Normal match net (ingestRequest data) with
         | NetworkFailure => JNull
         | Responded r =>
             if ok r then
               match bodyJson r with Some v => v | None => JNull end
             else JNull
         end.
Proof.
  unfold sendToCortex, try_catch, bind, fetch, json, throw, ret, completion.
  destruct (net (ingestRequest data)) as [|r]; cbn.
  - reflexivity.
  - destruct (ok r); cbn; [destruct (bodyJson r) |]; reflexivity.
Qed.

Lemma spawn_sendToCortex (data : Context) (net : Network) :
  spawn (sendToCortex data) net = ([Fetch (ingestRequest data)], Normal tt).
Proof.
  unfold spawn. pose proof (sendToCortex_trace data net) as [Ht _].
  unfold trace in Ht. rewrite Ht. reflexivity.
Qed.

(* ------------------------------------------------------------------ *)
(** ** The observer callback *)

Lemma observerCallback_spec (st : PageState) (page : Page)
  (mutations : list MutationRecord) (net : Network) :
  observerCallback st page mutations net =
  (if truthy (isCapturing st) then captureTrace page mutations else [],
   Normal tt).
Proof.
  unfold observerCallback, observerCallbackWith, captureTrace.
  destruct (truthy (isCapturing st)); cbn [negb]; [| reflexivity].
  destruct (assoc (detectPlatform (location page)) selectors) as [sel|];
    [| reflexivity].
  set (ctx := extractConversationContext page (detectPlatform (location page))).
  set (g := fun node : Node =>
              if qualifyingNode sel node then [Fetch (ingestRequest ctx)] else []).
  rewrite (forEach_total (fun m => flat_map g (addedNodes m))).
  - rewrite flat_map_nested. unfold g. fold (batchNodes mutations).
    rewrite (flat_map_guard (qualifyingNode sel)
               (fun _ => Fetch (ingestRequest ctx))).
    reflexivity.
  - intros m _. apply forEach_total. intros node _.
    unfold g, qualifyingNode, plainMatch, plainExtract, bind, ret.
    destruct (Z.eqb (Dom.nodeType node) 1); cbn; [| reflexivity].
    destruct (responseElementOf sel node); cbn; [| reflexivity].
    exact (spawn_sendToCortex ctx net).
Qed.

(* ------------------------------------------------------------------ *)
(** ** Strings *)

Lemma prefix_inv (p s : string) :
  String.prefix p s = true -> exists post, s = (p ++ post)%string.
Proof.
  revert s. induction p as [|a p IH]; intros s H.
  - exists s. reflexivity.
  - destruct s as [|b s]; cbn in H; [discriminate |].
    destruct (Ascii.ascii_dec a b) as [->|]; [| discriminate].
    destruct (IH s H) as [post ->]. exists post. reflexivity.
Qed.

Lemma prefix_append (p post : string) : String.prefix p (p ++ post) = true.
Proof.
  induction p as [|a p IH]; cbn.
  - destruct post; reflexivity.
  - destruct (Ascii.ascii_dec a a); [exact IH | congruence].
Qed.

(** [includes] decides the substring relation. *)
Lemma includes_spec (needle hay : string) :
  JsString.includes needle hay = true <->
  exists pre post, hay = (pre ++ needle ++ post)%string.
Proof.
  split.
  - induction hay as [|c hay IH]; cbn [JsString.includes].
    + destruct (String.prefix needle "") eqn:E; [| discriminate].
      intros _. destruct (prefix_inv _ _ E) as [post ->].
      exists "", post. reflexivity.
    + destruct (String.prefix needle (String c hay)) eqn:E.
      * intros _. destruct (prefix_inv _ _ E) as [post ->].
        exists "", post. reflexivity.
      * intros H. destruct (IH H) as (pre & post & ->).
        exists (String c pre), post. reflexivity.
  - intros (pre & post & ->).
    induction pre as [|c pre IH].
    + cbn [String.append].
      destruct (needle ++ post)%string eqn:E; cbn [JsString.includes];
        rewrite <- E, prefix_append; reflexivity.
    + cbn [String.append JsString.includes]. rewrite IH.
      destruct (String.prefix needle _); reflexivity.
Qed.

(* ------------------------------------------------------------------ *)
(** ** Platform detection *)

Lemma detectPlatform_identify (w : Location) :
  detectPlatform w = identify (hostname w).
Proof.
  unfold detectPlatform, identify, knownHosts. cbn [find fst snd].
  destruct (JsString.includes "chat.openai.com" (hostname w)); [reflexivity |].
  destruct (JsString.includes "claude.ai" (hostname w)); [reflexivity |].
  destruct (JsString.includes "perplexity.ai" (hostname w)); reflexivity.
Qed.

Lemma find_first_listed {A : Type} (p : A -> bool) (before : list A) (x : A)
  (after : list A) :
  (forall e, In e before -> p e = false) -> p x = true ->
  find p (before ++ x :: after) = Some x.
Proof.
  intros Hb Hx. induction before as [|e before IH]; cbn.
  - rewrite Hx. reflexivity.
  - rewrite (Hb e (or_introl eq_refl)). apply IH.
    intros e' He'. apply Hb. right. exact He'.
Qed.

(** C9, as the code has it. [detectPlatform] depends on the address
    through its host name only and matches by substring against the fixed
    registry, in its order [chat.openai.com], [claude.ai], [perplexity.ai]:
    the result is the tag of the first listed platform whose host the host
    name contains, so a host name that contains several registered hosts
    gets the tag of the one listed first; when it contains none of them the
    result is ["unknown"]. The function is total, so it cannot fail. *)
Theorem detectPlatform_first_listed (w : Location) :
  detectPlatform w = identify (hostname w) /\
  (forall w', hostname w' = hostname w -> detectPlatform w' = detectPlatform w) /\
  (forall host,
      JsString.includes host (hostname w) = true <->
      exists pre post, hostname w = (pre ++ host ++ post)%string) /\
  (forall before tag host after,
      knownHosts = before ++ (tag, host) :: after ->
      JsString.includes host (hostname w) = true ->
      (forall e, In e before ->
                 JsString.includes (snd e) (hostname w) = false) ->
      detectPlatform w = tag) /\
  ((forall tag host, In (tag, host) knownHosts ->
                     JsString.includes host (hostname w) = false) ->
   detectPlatform w = "unknown").
Proof.
  split; [apply detectPlatform_identify |].
  split; [intros w' Hw'; unfold detectPlatform; rewrite Hw'; reflexivity |].
  split; [intros host; apply includes_spec |].
  split.
  - intros before tag host after Hk Hinc Hbefore.
    rewrite detectPlatform_identify. unfold identify. rewrite Hk.
    rewrite (find_first_listed
               (fun e => JsString.includes (snd e) (hostname w))
               before (tag, host) after Hbefore Hinc).
    reflexivity.
  - intros Hnone. rewrite detectPlatform_identify. unfold identify.
    destruct (find (fun e => JsString.includes (snd e) (hostname w)) knownHosts)
      as [[t h]|] eqn:E; [| reflexivity].
    apply find_some in E. destruct E as [Hin Hinc]. cbn in Hinc.
    rewrite (Hnone t h Hin) in Hinc. discriminate.
Qed.

Lemma detectPlatform_first_listed_witness :
  detectPlatform Sample.claudeLocation = "claude" /\
  detectPlatform Sample.twoHostsLocation = "chatgpt" /\
  detectPlatform Sample.otherLocation = "unknown".
Proof.
  split; [| split].
  - apply (proj1 (proj2 (proj2 (proj2
             (detectPlatform_first_listed Sample.claudeLocation))))
             [("chatgpt", "chat.openai.com")] "claude" "claude.ai"
             [("perplexity", "perplexity.ai")]).
    + reflexivity.
    + reflexivity.
    + intros e [<- | []]. reflexivity.
  - apply (proj1 (proj2 (proj2 (proj2
             (detectPlatform_first_listed Sample.twoHostsLocation))))
             [] "chatgpt" "chat.openai.com"
             [("claude", "claude.ai"); ("perplexity", "perplexity.ai")]).
    + reflexivity.
    + reflexivity.
    + intros e [].
  - apply (proj2 (proj2 (proj2 (proj2
             (detectPlatform_first_listed Sample.otherLocation))))).
    intros tag host [E | [E | [E | []]]]; inversion E; reflexivity.
Defined.

(** C9, as stated, fails on the code: the host name
    [claude.ai.chat.openai.com] contains the host of the supported
    platform claude, and the result is not that platform's tag but
    ["chatgpt"]. *)
Lemma detectPlatform_two_hosts_counterexample :
  In ("claude", "claude.ai") knownHosts /\
  JsString.includes "claude.ai" (hostname Sample.twoHostsLocation) = true /\
  detectPlatform Sample.twoHostsLocation = "chatgpt" /\
  detectPlatform Sample.twoHostsLocation <> "claude".
Proof.
  split; [cbn; auto |]. split; [reflexivity |].
  split; [reflexivity | discriminate].
Qed.

(* ------------------------------------------------------------------ *)
(** ** The conversation identifier *)

Lemma append_assoc (a b c : string) :
  ((a ++ b) ++ c)%string = (a ++ b ++ c)%string.
Proof.
  induction a as [|x a IH]; cbn; [reflexivity | rewrite IH; reflexivity].
Qed.

Lemma takeId_split (s : string) :
  exists post,
    s = (takeId s ++ post)%string /\
    allIdChars (takeId s) = true /\ stopsId post = true.
Proof.
  induction s as [|c s IH]; cbn.
  - exists "". auto.
  - destruct (isIdChar c) eqn:E.
    + destruct IH as (post & Hs & Hall & Hstop). exists post. cbn.
      rewrite E, Hall. rewrite <- Hs. auto.
    + exists (String c s). cbn. rewrite E. auto.
Qed.

Lemma captureAt_sound (s : string) :
  JsString.isEmpty (captureAt s) = false ->
  exists post,
    s = ("/c/" ++ captureAt s ++ post)%string /\
    allIdChars (captureAt s) = true /\ stopsId post = true.
Proof.
  unfold captureAt. destruct (String.prefix "/c/" s) eqn:E; [| discriminate].
  destruct (prefix_inv _ _ E) as [t ->]. intros _. cbn [JsString.drop String.append].
  destruct (takeId_split t) as (post & Ht & Hall & Hstop).
  exists post. rewrite <- Ht. auto.
Qed.

Lemma captureAt_complete (c : ascii) (post : string) :
  isIdChar c = true ->
  JsString.isEmpty (captureAt ("/c/" ++ String c post)) = false.
Proof.
  intros H. unfold captureAt. rewrite prefix_append.
  cbn [JsString.drop String.append takeId]. rewrite H. reflexivity.
Qed.

Lemma allIdChars_head (id : string) :
  JsString.isEmpty id = false -> allIdChars id = true ->
  exists c rest, id = String c rest /\ isIdChar c = true.
Proof.
  destruct id as [|c rest]; cbn; [discriminate |].
  intros _ H. apply andb_true_iff in H. exists c, rest. tauto.
Qed.

(** What a successful match returns: a non-empty, maximal run of
    identifier characters that follows the leftmost matching ["/c/"]. *)
Lemma matchConversationId_sound (s id : string) :
  matchConversationId s = Some id ->
  exists pre post,
    s = (pre ++ "/c/" ++ id ++ post)%string /\
    JsString.isEmpty id = false /\
    allIdChars id = true /\ stopsId post = true /\
    matchConversationId (pre ++ "/c/") = None.
Proof.
  induction s as [|c s IH]; cbn [matchConversationId]; [discriminate |].
  destruct (JsString.isEmpty (captureAt (String c s))) eqn:E.
  - intros H. destruct (IH H) as (pre & post & Hs & Hne & Hall & Hstop & Hleft).
    exists (String c pre), post. repeat split; auto.
    + cbn. rewrite Hs. reflexivity.
    + cbn [String.append matchConversationId]. rewrite Hleft.
      destruct (JsString.isEmpty (captureAt (String c (pre ++ "/c/")))) eqn:E';
        [reflexivity |].
      exfalso.
      destruct (captureAt_sound _ E') as (post' & Hs' & Hall' & _).
      destruct (allIdChars_head _ E' Hall') as (x & rest & Hx & Hid).
      rewrite Hx in Hs'. cbn in Hs'. injection Hs' as Hc Hs'.
      assert (Hfull : String c s = ("/c/" ++ String x (rest ++ post' ++ id ++ post))%string).
      { rewrite Hs. rewrite <- (append_assoc pre "/c/" (id ++ post)).
        rewrite Hs', Hc. cbn. rewrite append_assoc. reflexivity. }
      rewrite Hfull, (captureAt_complete _ _ Hid) in E. discriminate.
  - intros H. injection H as <-.
    destruct (captureAt_sound _ E) as (post & Hs & Hall & Hstop).
    exists "", post. repeat split; auto.
Qed.

(** No match exactly when the path has no ["/c/"] followed by an
    identifier character. *)
Lemma matchConversationId_none (s : string) :
  matchConversationId s = None <-> ~ hasIdSegment s.
Proof.
  split.
  - induction s as [|c s IH]; cbn [matchConversationId].
    + intros _ (pre & x & post & H & _). destruct pre; discriminate.
    + destruct (JsString.isEmpty (captureAt (String c s))) eqn:E; [| discriminate].
      intros H (pre & x & post & Hs & Hx).
      destruct pre as [|p pre].
      * cbn [String.append] in Hs. rewrite Hs in E.
        change (String "/" (String "c" (String "/" (String x post))))
          with ("/c/" ++ String x post)%string in E.
        rewrite (captureAt_complete _ _ Hx) in E. discriminate.
      * cbn in Hs. injection Hs as _ Hs.
        apply (IH H). exists pre, x, post. auto.
  - intros Hno. destruct (matchConversationId s) as [id|] eqn:E; [| reflexivity].
    exfalso. apply Hno.
    destruct (matchConversationId_sound _ E) as (pre & post & Hs & Hne & Hall & _).
    destruct (allIdChars_head _ Hne Hall) as (x & rest & -> & Hx).
    exists pre, x, (rest ++ post)%string. split; [exact Hs | exact Hx].
Qed.

Lemma conversation_id_match (page : Page) (tag : string) :
  conversation_id (extractConversationContext page tag) =
  match matchConversationId (pathname (location page)) with
  | Some id => JStr id
  | None => JStr ("conv_" ++ JsString.ofZ (dateNow page))
  end.
Proof.
  unfold extractConversationContext.
  destruct (String.eqb tag "chatgpt"); [reflexivity |].
  destruct (String.eqb tag "claude"); reflexivity.
Qed.

(** C3, as the code has it. The identifier of a snapshot is never null.
    When the address path has a ["/c/"] followed by an identifier character,
    it is the longest run of identifier characters after the leftmost such
    ["/c/"]; otherwise it is ["conv_"] followed by the capture time in
    milliseconds. So [https://chat.openai.com/c/xyz789] yields ["xyz789"],
    and [https://claude.ai/chat/xyz789], whose path has no ["/c/"] segment,
    yields the synthetic identifier. *)
Theorem conversation_id_spec (page : Page) (tag : string) :
  conversation_id (extractConversationContext page tag) <> JNull /\
  (hasIdSegment (pathname (location page)) ->
   exists pre id post,
     pathname (location page) = (pre ++ "/c/" ++ id ++ post)%string /\
     JsString.isEmpty id = false /\
     allIdChars id = true /\ stopsId post = true /\
     ~ hasIdSegment (pre ++ "/c/") /\
     conversation_id (extractConversationContext page tag) = JStr id) /\
  (~ hasIdSegment (pathname (location page)) ->
   conversation_id (extractConversationContext page tag) =
   JStr ("conv_" ++ JsString.ofZ (dateNow page))) /\
  conversation_id (extractConversationContext Sample.chatgptPage "chatgpt") =
  JStr "xyz789" /\
  conversation_id (extractConversationContext Sample.claudePage "claude") =
  JStr "conv_1704067200000".
Proof.
  rewrite conversation_id_match.
  split; [destruct (matchConversationId _); discriminate |].
  split; [| split; [| split; reflexivity]].
  - intros Hseg.
    destruct (matchConversationId (pathname (location page))) as [id|] eqn:E.
    + destruct (matchConversationId_sound _ E)
        as (pre & post & Hs & Hne & Hall & Hstop & Hleft).
      exists pre, id, post. repeat split; auto.
      apply matchConversationId_none. exact Hleft.
    + exfalso. apply matchConversationId_none in E. exact (E Hseg).
  - intros Hno. apply matchConversationId_none in Hno. rewrite Hno. reflexivity.
Qed.

Lemma conversation_id_spec_witness :
  (exists pre id post,
     pathname (location Sample.chatgptPage) = (pre ++ "/c/" ++ id ++ post)%string /\
     JsString.isEmpty id = false /\
     allIdChars id = true /\ stopsId post = true /\
     ~ hasIdSegment (pre ++ "/c/") /\
     conversation_id (extractConversationContext Sample.chatgptPage "chatgpt") =
     JStr id) /\
  conversation_id (extractConversationContext Sample.claudePage "claude") =
  JStr ("conv_" ++ JsString.ofZ (dateNow Sample.claudePage)).
Proof.
  split.
  - apply (proj1 (proj2 (conversation_id_spec Sample.chatgptPage "chatgpt"))).
    exists "", "x"%char, "yz789". split; reflexivity.
  - apply (proj1 (proj2 (proj2 (conversation_id_spec Sample.claudePage "claude")))).
    apply matchConversationId_none. reflexivity.
Defined.

(** C3, as stated, fails on the code: for [https://claude.ai/chat/xyz789]
    the identifier of the snapshot is not ["xyz789"]. *)
Lemma conversation_id_claude_counterexample :
  conversation_id (extractConversationContext Sample.claudePage "claude") <>
  JStr "xyz789" /\
  matchConversationId (pathname Sample.claudeLocation) = None.
Proof.
  split; [vm_compute; discriminate | reflexivity].
Qed.

(* ------------------------------------------------------------------ *)
(** ** Extraction always yields a snapshot *)

Lemma extract_header (page : Page) (tag : string) :
  platform (extractConversationContext page tag) = tag /\
  url (extractConversationContext page tag) = href (location page) /\
  timestamp (extractConversationContext page tag) = isoNow page.
Proof.
  unfold extractConversationContext.
  destruct (String.eqb tag "chatgpt"); [cbn; auto |].
  destruct (String.eqb tag "claude"); cbn; auto.
Qed.

Lemma extract_messages (page : Page) (tag : string) :
  messages (extractConversationContext page tag) =
  if String.eqb tag "chatgpt" then
    flat_map chatgptMessage
             (Dom.querySelectorAll sel_author_role (document page))
  else if String.eqb tag "claude" then
    flat_map claudeMessage (Dom.querySelectorAll sel_message (document page))
  else [].
Proof.
  unfold extractConversationContext.
  destruct (String.eqb tag "chatgpt"); [reflexivity |].
  destruct (String.eqb tag "claude"); reflexivity.
Qed.

Lemma flat_map_all_nil {A B : Type} (f : A -> list B) (l : list A) :
  (forall x, In x l -> f x = []) -> flat_map f l = [].
Proof.
  induction l as [|x l IH]; intros H; cbn; [reflexivity |].
  rewrite (H x (or_introl eq_refl)), IH; [reflexivity |].
  intros y Hy. apply H. right. exact Hy.
Qed.

Lemma captureTrace_requests (page : Page) (mutations : list MutationRecord) :
  qualifying page mutations = true ->
  requests (captureTrace page mutations) <> [] /\
  forall r, In r (requests (captureTrace page mutations)) ->
            r = ingestRequest (extractConversationContext page
                                 (detectPlatform (location page))).
Proof.
  unfold qualifying, captureTrace.
  destruct (assoc (detectPlatform (location page)) selectors) as [sel|];
    [| discriminate].
  intros Hq. rewrite requests_map_Fetch. split.
  - apply existsb_exists in Hq. destruct Hq as (node & Hin & Hnode).
    assert (Hf : In node (filter (qualifyingNode sel) (batchNodes mutations)))
      by (apply filter_In; auto).
    destruct (filter (qualifyingNode sel) (batchNodes mutations));
      [contradiction | discriminate].
  - intros r Hr. apply in_map_iff in Hr. destruct Hr as (_ & <- & _).
    reflexivity.
Qed.

(** C1, as the code has it. For every platform tag and page state the
    extractor returns a snapshot, filled in from the page, and never
    [null]. Its messages are empty whenever the tag is neither ["chatgpt"]
    nor ["claude"] (so for ["unknown"] and ["perplexity"]) and whenever no
    message element has non-empty content. The observer callback does
    nothing on a page whose platform is ["unknown"]; on a qualifying batch
    of any other page it hands the snapshot to [sendToCortex], whether its
    messages are empty or not. *)
Theorem extract_always_snapshot (page : Page) (tag : string) :
  (platform (extractConversationContext page tag) = tag /\
   url (extractConversationContext page tag) = href (location page) /\
   timestamp (extractConversationContext page tag) = isoNow page /\
   conversation_id (extractConversationContext page tag) <> JNull) /\
  (tag <> "chatgpt" -> tag <> "claude" ->
   messages (extractConversationContext page tag) = []) /\
  ((forall msg, In msg (Dom.querySelectorAll sel_author_role (document page)) ->
                textOr (Dom.querySelector sel_markdown msg) "" = "") ->
   messages (extractConversationContext page "chatgpt") = []) /\
  ((forall msg, In msg (Dom.querySelectorAll sel_message (document page)) ->
                textOr (Dom.querySelector sel_message_text msg) "" = "") ->
   messages (extractConversationContext page "claude") = []) /\
  (forall st mutations net,
      detectPlatform (location page) = "unknown" ->
      observerCallback st page mutations net = ([], Normal tt)) /\
  (forall st mutations net,
      truthy (isCapturing st) = true ->
      qualifying page mutations = true ->
      requests (trace (observerCallback st page mutations net)) <> [] /\
      forall r,
        In r (requests (trace (observerCallback st page mutations net))) ->
        r = ingestRequest (extractConversationContext page
                             (detectPlatform (location page)))).
Proof.
  split; [| split; [| split; [| split; [| split]]]].
  - destruct (extract_header page tag) as (H1 & H2 & H3).
    repeat split; auto.
    rewrite conversation_id_match. destruct (matchConversationId _); discriminate.
  - intros H1 H2. rewrite extract_messages.
    apply String.eqb_neq in H1, H2. rewrite H1, H2. reflexivity.
  - intros H. rewrite extract_messages. cbn [String.eqb Ascii.eqb Bool.eqb].
    apply flat_map_all_nil. intros msg Hmsg. unfold chatgptMessage.
    rewrite (H msg Hmsg). reflexivity.
  - intros H. rewrite extract_messages. cbn [String.eqb Ascii.eqb Bool.eqb].
    apply flat_map_all_nil. intros msg Hmsg. unfold claudeMessage.
    rewrite (H msg Hmsg). reflexivity.
  - intros st mutations net Hu. rewrite observerCallback_spec.
    unfold captureTrace. rewrite Hu. cbn. destruct (truthy _); reflexivity.
  - intros st mutations net Hon Hq. rewrite observerCallback_spec, Hon.
    cbn [trace fst]. apply captureTrace_requests. exact Hq.
Qed.

Lemma extract_always_snapshot_witness :
  messages (extractConversationContext Sample.perplexityPage "perplexity") = [] /\
  messages (extractConversationContext
              (Sample.pageOf Sample.chatgptLocation []) "chatgpt") = [] /\
  messages (extractConversationContext
              (Sample.pageOf Sample.claudeLocation []) "claude") = [] /\
  observerCallback Sample.capturing Sample.otherPage
    (Sample.batchOf [Sample.proseNode]) Sample.netOk = ([], Normal tt) /\
  requests (trace (observerCallback Sample.capturing Sample.perplexityPage
                     (Sample.batchOf [Sample.proseNode]) Sample.netOk)) <> [].
Proof.
  split; [| split; [| split; [| split]]].
  - apply (proj1 (proj2
             (extract_always_snapshot Sample.perplexityPage "perplexity")));
      discriminate.
  - apply (proj1 (proj2 (proj2
             (extract_always_snapshot
                (Sample.pageOf Sample.chatgptLocation []) "chatgpt")))).
    intros msg H. vm_compute in H. contradiction.
  - apply (proj1 (proj2 (proj2 (proj2
             (extract_always_snapshot
                (Sample.pageOf Sample.claudeLocation []) "claude"))))).
    intros msg H. vm_compute in H. contradiction.
  - apply (proj1 (proj2 (proj2 (proj2 (proj2
             (extract_always_snapshot Sample.otherPage "unknown")))))).
    reflexivity.
  - apply (proj2 (proj2 (proj2 (proj2 (proj2
             (extract_always_snapshot Sample.perplexityPage "perplexity"))))));
      reflexivity.
Defined.

(** C1, as stated, fails on the code: for the tag ["unknown"] the
    extractor returns a snapshot, with no messages, instead of [null]; and
    on a chatgpt page where an answer element appears outside any message
    element, the observer hands a snapshot with no messages to
    [sendToCortex]. *)
Lemma extract_empty_snapshot_counterexample :
  extractConversationContext Sample.otherPage "unknown" =
  {| platform := "unknown";
     url := "https://example.org/";
     timestamp := "2024-01-01T00:00:00.000Z";
     conversation_id := JStr "conv_1704067200000";
     messages := [] |} /\
  requests (trace (observerCallback Sample.capturing
                     (Sample.pageOf Sample.chatgptLocation
                        [Sample.strayMarkdownNode])
                     (Sample.batchOf [Sample.strayMarkdownNode])
                     Sample.netOk)) =
  [ingestRequest
     {| platform := "chatgpt";
        url := "https://chat.openai.com/c/xyz789";
        timestamp := "2024-01-01T00:00:00.000Z";
        conversation_id := JStr "xyz789";
        messages := [] |}].
Proof.
  split; reflexivity.
Qed.

(* ------------------------------------------------------------------ *)
(** ** Roles and contents of extracted messages *)

Lemma textOr_empty_nonempty (el : option Node) :
  JsString.isEmpty (textOr el "") = false ->
  exists e, el = Some e /\ textOr el "" = Dom.textContent e /\
            Dom.textContent e <> "".
Proof.
  destruct el as [e|]; cbn; [| discriminate].
  destruct (JsString.isEmpty (Dom.textContent e)) eqn:E; cbn; [discriminate |].
  intros _. exists e. repeat split. intros H. rewrite H in E. discriminate.
Qed.

(** An element selected by [[data-message-author-role]] has the attribute. *)
Lemma author_role_present (root msg : Node) :
  In msg (Dom.querySelectorAll sel_author_role root) ->
  exists r, Dom.getAttribute msg "data-message-author-role" = Some r.
Proof.
  unfold Dom.querySelectorAll. intros H. apply filter_In in H.
  destruct H as [_ H]. destruct msg as [tag cls attrs cs| |]; cbn in H;
    try discriminate.
  cbn. destruct (assoc "data-message-author-role" attrs) as [r|];
    [exists r; reflexivity | discriminate].
Qed.

Lemma chatgptMessage_inv (msg : Node) (m : Message) :
  In m (chatgptMessage msg) ->
  exists md,
    Dom.querySelector sel_markdown msg = Some md /\
    content m = Dom.textContent md /\ content m <> "" /\
    role m = match Dom.getAttribute msg "data-message-author-role" with
             | Some r => JStr r
             | None => JNull
             end.
Proof.
  unfold chatgptMessage.
  destruct (JsString.isEmpty (textOr (Dom.querySelector sel_markdown msg) ""))
    eqn:E; cbn [negb]; [contradiction |].
  intros [<- | []]. cbn [role content].
  destruct (textOr_empty_nonempty _ E) as (md & Hq & Ht & Hne).
  exists md. rewrite Ht. auto.
Qed.

Lemma claudeMessage_inv (msg : Node) (m : Message) :
  In m (claudeMessage msg) ->
  (exists txt,
     Dom.querySelector sel_message_text msg = Some txt /\
     content m = Dom.textContent txt /\ content m <> "") /\
  (role m = JStr "user" \/ role m = JStr "assistant") /\
  (forall sender,
     Dom.querySelector sel_message_sender msg = Some sender ->
     Dom.textContent sender <> "" ->
     role m = if JsString.includes "you"
                   (JsString.toLowerCase (Dom.textContent sender))
              then JStr "user" else JStr "assistant").
Proof.
  unfold claudeMessage.
  destruct (JsString.isEmpty (textOr (Dom.querySelector sel_message_text msg) ""))
    eqn:E; cbn [negb]; [contradiction |].
  intros [<- | []]. cbn [role content].
  destruct (textOr_empty_nonempty _ E) as (txt & Hq & Ht & Hne).
  split; [exists txt; rewrite Ht; auto |].
  split.
  - destruct (JsString.includes "you" _); auto.
  - intros sender Hs Hne'. rewrite Hs.
    destruct (JsString.isEmpty (JsString.toLowerCase (Dom.textContent sender)))
      eqn:E'; [| reflexivity].
    exfalso. apply Hne'. destruct (Dom.textContent sender); [reflexivity | discriminate].
Qed.

(** C7, as the code has it. Every extracted message has non-empty
    content, and an element whose derived content is empty contributes no
    message. On chatgpt the role is the value of the element's
    [data-message-author-role] attribute, passed through unchanged. On
    claude the role is ["user"] when the lower-cased text of the sender
    marker contains ["you"] and ["assistant"] when the sender marker has
    any other non-empty text. *)
Theorem extracted_message_roles (page : Page) (m : Message) :
  (forall tag, In m (messages (extractConversationContext page tag)) ->
               content m <> "") /\
  (forall msg,
      (textOr (Dom.querySelector sel_markdown msg) "" = "" ->
       chatgptMessage msg = []) /\
      (textOr (Dom.querySelector sel_message_text msg) "" = "" ->
       claudeMessage msg = [])) /\
  (In m (messages (extractConversationContext page "chatgpt")) ->
   exists msg r md,
     In msg (Dom.querySelectorAll sel_author_role (document page)) /\
     Dom.getAttribute msg "data-message-author-role" = Some r /\
     Dom.querySelector sel_markdown msg = Some md /\
     role m = JStr r /\ content m = Dom.textContent md) /\
  (In m (messages (extractConversationContext page "claude")) ->
   exists msg txt,
     In msg (Dom.querySelectorAll sel_message (document page)) /\
     Dom.querySelector sel_message_text msg = Some txt /\
     content m = Dom.textContent txt /\
     forall sender,
       Dom.querySelector sel_message_sender msg = Some sender ->
       Dom.textContent sender <> "" ->
       role m = if JsString.includes "you"
                     (JsString.toLowerCase (Dom.textContent sender))
                then JStr "user" else JStr "assistant").
Proof.
  split; [| split; [| split]].
  - intros tag. rewrite extract_messages.
    destruct (String.eqb tag "chatgpt").
    + intros H. apply in_flat_map in H. destruct H as (msg & _ & H).
      destruct (chatgptMessage_inv _ _ H) as (_ & _ & _ & Hne & _). exact Hne.
    + destruct (String.eqb tag "claude"); [| contradiction].
      intros H. apply in_flat_map in H. destruct H as (msg & _ & H).
      destruct (claudeMessage_inv _ _ H) as ((_ & _ & _ & Hne) & _). exact Hne.
  - intros msg. split; intros H.
    + unfold chatgptMessage. rewrite H. reflexivity.
    + unfold claudeMessage. rewrite H. reflexivity.
  - rewrite extract_messages. cbn [String.eqb Ascii.eqb Bool.eqb].
    intros H. apply in_flat_map in H. destruct H as (msg & Hin & H).
    destruct (chatgptMessage_inv _ _ H) as (md & Hq & Hc & _ & Hr).
    destruct (author_role_present _ _ Hin) as [r Ha].
    exists msg, r, md. rewrite Ha in Hr. auto.
  - rewrite extract_messages. cbn [String.eqb Ascii.eqb Bool.eqb].
    intros H. apply in_flat_map in H. destruct H as (msg & Hin & H).
    destruct (claudeMessage_inv _ _ H) as ((txt & Hq & Hc & _) & _ & Hr).
    exists msg, txt. auto.
Qed.

Lemma extracted_message_roles_witness :
  content {| role := JStr "system"; content := "Be brief." |} <> "" /\
  chatgptMessage (Elem "div" [] [("data-message-author-role", "user")] []) = [] /\
  (exists msg r md,
     In msg (Dom.querySelectorAll sel_author_role (document Sample.chatgptPage)) /\
     Dom.getAttribute msg "data-message-author-role" = Some r /\
     Dom.querySelector sel_markdown msg = Some md /\
     JStr "system" = JStr r /\ "Be brief." = Dom.textContent md) /\
  (exists msg txt,
     In msg (Dom.querySelectorAll sel_message (document Sample.claudePage)) /\
     Dom.querySelector sel_message_text msg = Some txt /\
     "Hello world" = Dom.textContent txt /\
     forall sender,
       Dom.querySelector sel_message_sender msg = Some sender ->
       Dom.textContent sender <> "" ->
       JStr "assistant" =
       if JsString.includes "you" (JsString.toLowerCase (Dom.textContent sender))
       then JStr "user" else JStr "assistant").
Proof.
  split; [| split; [| split]].
  - apply (proj1 (extracted_message_roles Sample.chatgptPage
                    {| role := JStr "system"; content := "Be brief." |})
             "chatgpt").
    cbn. auto.
  - apply (proj1 (proj1 (proj2 (extracted_message_roles Sample.chatgptPage
                    {| role := JStr "system"; content := "Be brief." |}))
             (Elem "div" [] [("data-message-author-role", "user")] []))).
    reflexivity.
  - apply (proj1 (proj2 (proj2 (extracted_message_roles Sample.chatgptPage
                    {| role := JStr "system"; content := "Be brief." |})))).
    cbn. auto.
  - apply (proj2 (proj2 (proj2 (extracted_message_roles Sample.claudePage
                    {| role := JStr "assistant"; content := "Hello world" |})))).
    cbn. auto.
Defined.

(** C7, as stated, fails on the code: a chatgpt element whose author role
    is ["system"] yields a message with role ["system"], which is none of
    ["user"], ["assistant"], ["unknown"]; and a claude message whose sender
    marker reads "Moderator" gets the role ["assistant"], not ["unknown"]. *)
Lemma role_not_normalized_counterexample :
  messages (extractConversationContext Sample.chatgptPage "chatgpt") =
  [{| role := JStr "system"; content := "Be brief." |}] /\
  ~ In (JStr "system") [JStr "user"; JStr "assistant"; JStr "unknown"] /\
  messages (extractConversationContext
              (Sample.pageOf Sample.claudeLocation [Sample.moderatorMessageNode])
              "claude") =
  [{| role := JStr "assistant"; content := "Stay on topic." |}].
Proof.
  split; [reflexivity | split; [| reflexivity]].
  intros [H | [H | [H | []]]]; discriminate.
Qed.

(* ------------------------------------------------------------------ *)
(** ** The capture flag *)

Lemma pageStep_batch (st : PageState) (page : Page) (net : Network)
  (mutations : list MutationRecord) :
  pageStep st (MutationBatch page net mutations) =
  (st, if truthy (isCapturing st) then captureTrace page mutations else []).
Proof.
  unfold pageStep, pageStepWith.
  change (observerCallbackWith plainMatch plainExtract st page mutations net)
    with (observerCallback st page mutations net).
  rewrite observerCallback_spec. reflexivity.
Qed.

Lemma pageRun_cons (st : PageState) (ev : PageEvent) (rest : list PageEvent) :
  pageRun st (ev :: rest) =
  (fst (pageRun (fst (pageStep st ev)) rest),
   snd (pageStep st ev) ++ snd (pageRun (fst (pageStep st ev)) rest)).
Proof.
  unfold pageRun, pageStep. cbn [pageRunWith].
  destruct (pageStepWith plainMatch plainExtract st ev) as [st1 t1].
  cbn [fst snd].
  destruct (pageRunWith plainMatch plainExtract st1 rest) as [st2 t2].
  reflexivity.
Qed.

(** C4. While the flag is off, a mutation batch produces no effect at
    all, so no relay invocation. While it is on, a qualifying batch makes
    the callback extract and send. The flag changes only in a step that
    handles a control message whose action is ["toggle"], and then it
    becomes the message's [enabled] value. In a run that toggles capture
    off, delivers a batch, toggles it on and delivers a qualifying batch,
    the first batch sends nothing and the second one is captured and
    sent. *)
Theorem capture_flag_guards_relay (st : PageState) :
  (forall page net mutations,
      truthy (isCapturing st) = false ->
      pageStep st (MutationBatch page net mutations) = (st, [])) /\
  (forall page net mutations,
      truthy (isCapturing st) = true ->
      qualifying page mutations = true ->
      requests (snd (pageStep st (MutationBatch page net mutations))) <> [] /\
      forall r,
        In r (requests (snd (pageStep st (MutationBatch page net mutations)))) ->
        r = ingestRequest (extractConversationContext page
                             (detectPlatform (location page)))) /\
  (forall ev,
      isCapturing (fst (pageStep st ev)) <> isCapturing st ->
      exists request,
        ev = ControlMessage request /\
        strictEqStr (getField request "action") "toggle" = true /\
        isCapturing (fst (pageStep st ev)) = getField request "enabled") /\
  (forall page1 net1 batch1 page2 net2 batch2,
      qualifying page2 batch2 = true ->
      requests (snd (pageRun st
                       [ControlMessage (Sample.toggleMessage false);
                        MutationBatch page1 net1 batch1])) = [] /\
      requests (snd (pageRun st
                       [ControlMessage (Sample.toggleMessage false);
                        MutationBatch page1 net1 batch1;
                        ControlMessage (Sample.toggleMessage true);
                        MutationBatch page2 net2 batch2])) =
      requests (captureTrace page2 batch2) /\
      requests (captureTrace page2 batch2) <> []).
Proof.
  split; [| split; [| split]].
  - intros page net mutations Hoff. rewrite pageStep_batch, Hoff. reflexivity.
  - intros page net mutations Hon Hq. rewrite pageStep_batch, Hon.
    cbn [snd]. apply captureTrace_requests. exact Hq.
  - intros [request | page net mutations] Hchg.
    + exists request. unfold pageStep, pageStepWith, controlListener in *.
      destruct (strictEqStr (getField request "action") "toggle").
      * cbn. auto.
      * cbn in Hchg. congruence.
    + rewrite pageStep_batch in Hchg. cbn in Hchg. congruence.
  - intros page1 net1 batch1 page2 net2 batch2 Hq.
    repeat rewrite pageRun_cons. repeat rewrite pageStep_batch.
    cbn. rewrite app_nil_r. split; [reflexivity |].
    split; [reflexivity |]. apply captureTrace_requests. exact Hq.
Qed.

Lemma capture_flag_guards_relay_witness :
  pageStep initialPageState
    (MutationBatch Sample.claudePage Sample.netOk
       (Sample.batchOf [Sample.claudeMessageNode])) = (initialPageState, []) /\
  requests (snd (pageStep Sample.capturing
                   (MutationBatch Sample.claudePage Sample.netOk
                      (Sample.batchOf [Sample.claudeMessageNode])))) <> [] /\
  (exists request,
     ControlMessage (Sample.toggleMessage true) = ControlMessage request /\
     strictEqStr (getField request "action") "toggle" = true /\
     isCapturing (fst (pageStep initialPageState
                         (ControlMessage (Sample.toggleMessage true)))) =
     getField request "enabled") /\
  requests (snd (pageRun Sample.capturing
                   [ControlMessage (Sample.toggleMessage false);
                    MutationBatch Sample.claudePage Sample.netOk
                      (Sample.batchOf [Sample.claudeMessageNode])])) = [].
Proof.
  split; [| split; [| split]].
  - apply (proj1 (capture_flag_guards_relay initialPageState)). reflexivity.
  - apply (proj1 (proj2 (capture_flag_guards_relay Sample.capturing)));
      reflexivity.
  - apply (proj1 (proj2 (proj2 (capture_flag_guards_relay initialPageState)))).
    cbn. discriminate.
  - apply (proj2 (proj2 (proj2 (capture_flag_guards_relay Sample.capturing)))
             Sample.claudePage Sample.netOk
             (Sample.batchOf [Sample.claudeMessageNode])
             Sample.claudePage Sample.netOk
             (Sample.batchOf [Sample.claudeMessageNode])).
    reflexivity.
Defined.

(* ------------------------------------------------------------------ *)
(** ** Who issues the POST *)

Lemma captureTrace_no_message (page : Page) (mutations : list MutationRecord) :
  filter isRuntimeSendMessage (captureTrace page mutations) = [].
Proof.
  unfold captureTrace.
  destruct (assoc (detectPlatform (location page)) selectors) as [sel|];
    [| reflexivity].
  induction (filter (qualifyingNode sel) (batchNodes mutations)) as [|n l IH];
    cbn; [reflexivity | exact IH].
Qed.

Lemma nullish_no_action (request : JsVal) (lit : string) :
  isNullish request = true ->
  strictEqStr (getField request "action") lit = false.
Proof.
  destruct request; cbn; intros H; try discriminate; reflexivity.
Qed.

(** The effects of the background listener, for every request. *)
Lemma backgroundListener_spec (request : JsVal) (net : Network) :
  backgroundListener request net =
  if strictEqStr (getField request "action") "enrichPrompt" then
    ([Fetch (processInteractionRequest (serverPayload request));
      SendResponse
        match net (processInteractionRequest (serverPayload request)) with
        | NetworkFailure => replyError
        | Responded r =>
            match bodyJson r with
            | Some data => replyOk data
            | None => replyError
            end
        end],
     Normal (JBool true))
  else if strictEqStr (getField request "action") "pingServer" then
    ([], Normal (JBool true))
  else if isNullish request then ([], Throw (nullishError request))
  else ([], Normal JUndefined).
Proof.
  unfold backgroundListener, readProperty.
  destruct (isNullish request) eqn:En.
  - rewrite !(nullish_no_action _ _ En). reflexivity.
  - cbv [bind ret]. cbn [app].
    destruct (strictEqStr (getField request "action") "enrichPrompt").
    + cbv [spawn enrichPromptChain try_catch fetch json emit ret throw bind].
      destruct (net (processInteractionRequest (serverPayload request))) as [|r];
        cbn; [reflexivity |].
      destruct (bodyJson r); reflexivity.
    + destruct (strictEqStr (getField request "action") "pingServer");
        reflexivity.
Qed.

(** C5, as the code has it. The page context never sends a message to the
    background context: for every captured snapshot the observer callback
    itself, through [sendToCortex], issues the POST of the snapshot to
    [http://localhost:5000/ingest], one request per qualifying added node.
    The background listener never posts to the ingestion endpoint: the only
    request it issues is the POST of [{text, platform}] to
    [/process_interaction], for an ["enrichPrompt"] message. *)
Theorem page_context_posts_snapshot (st : PageState) :
  (forall ev, filter isRuntimeSendMessage (snd (pageStep st ev)) = []) /\
  (forall page net mutations r,
      In r (requests (snd (pageStep st (MutationBatch page net mutations)))) ->
      req_url r = "http://localhost:5000/ingest" /\
      req_method r = "POST" /\
      req_body r = contextToJs (extractConversationContext page
                                  (detectPlatform (location page)))) /\
  (forall page net mutations selector,
      truthy (isCapturing st) = true ->
      assoc (detectPlatform (location page)) selectors = Some selector ->
      length (requests (snd (pageStep st (MutationBatch page net mutations)))) =
      length (filter (qualifyingNode selector) (batchNodes mutations))) /\
  (forall request net r,
      In r (requests (trace (backgroundListener request net))) ->
      r = processInteractionRequest (serverPayload request) /\
      req_url r = "http://127.0.0.1:8000/process_interaction" /\
      strictEqStr (getField request "action") "enrichPrompt" = true).
Proof.
  split; [| split; [| split]].
  - intros [request | page net mutations].
    + unfold pageStep, pageStepWith, controlListener.
      destruct (strictEqStr (getField request "action") "toggle"); reflexivity.
    + rewrite pageStep_batch. cbn [snd].
      destruct (truthy (isCapturing st));
        [apply captureTrace_no_message | reflexivity].
  - intros page net mutations r. rewrite pageStep_batch. cbn [snd].
    destruct (truthy (isCapturing st)); [| contradiction].
    unfold captureTrace.
    destruct (assoc (detectPlatform (location page)) selectors) as [sel|];
      [| contradiction].
    rewrite requests_map_Fetch. intros H. apply in_map_iff in H.
    destruct H as (_ & <- & _). repeat split.
  - intros page net mutations selector Hon Hsel. rewrite pageStep_batch, Hon.
    cbn [snd]. unfold captureTrace. rewrite Hsel.
    rewrite requests_map_Fetch. apply length_map.
  - intros request net r. rewrite backgroundListener_spec.
    destruct (strictEqStr (getField request "action") "enrichPrompt").
    + cbn. intros [<- | []]. repeat split.
    + destruct (strictEqStr (getField request "action") "pingServer");
        [contradiction |].
      destruct (isNullish request); contradiction.
Qed.

Lemma page_context_posts_snapshot_witness :
  (req_url (ingestRequest (extractConversationContext Sample.claudePage "claude")) =
   "http://localhost:5000/ingest" /\
   req_method (ingestRequest (extractConversationContext Sample.claudePage "claude")) =
   "POST" /\
   req_body (ingestRequest (extractConversationContext Sample.claudePage "claude")) =
   contextToJs (extractConversationContext Sample.claudePage
                  (detectPlatform (location Sample.claudePage)))) /\
  length (requests (snd (pageStep Sample.capturing
                           (MutationBatch Sample.claudePage Sample.netOk
                              (Sample.batchOf [Sample.claudeMessageNode]))))) =
  length (filter (qualifyingNode sel_message_text)
            (batchNodes (Sample.batchOf [Sample.claudeMessageNode]))) /\
  processInteractionRequest (serverPayload (Sample.enrichMessage "hi")) =
  processInteractionRequest (serverPayload (Sample.enrichMessage "hi")) /\
  req_url (processInteractionRequest (serverPayload (Sample.enrichMessage "hi"))) =
  "http://127.0.0.1:8000/process_interaction" /\
  strictEqStr (getField (Sample.enrichMessage "hi") "action") "enrichPrompt" = true.
Proof.
  split; [| split].
  - apply (proj1 (proj2 (page_context_posts_snapshot Sample.capturing))
             Sample.claudePage Sample.netOk
             (Sample.batchOf [Sample.claudeMessageNode])).
    cbn. auto.
  - apply (proj1 (proj2 (proj2 (page_context_posts_snapshot Sample.capturing))));
      reflexivity.
  - apply (proj2 (proj2 (proj2 (page_context_posts_snapshot Sample.capturing)))
             (Sample.enrichMessage "hi") Sample.netOk).
    cbn. auto.
Defined.

(** C5, as stated, fails on the code: on the claude page a qualifying
    batch makes the page context issue the POST to the ingestion endpoint
    itself, and it sends no message to the background context. *)
Lemma page_context_fetch_counterexample :
  snd (pageStep Sample.capturing
         (MutationBatch Sample.claudePage Sample.netOk
            (Sample.batchOf [Sample.claudeMessageNode]))) =
  [Fetch (ingestRequest
            {| platform := "claude";
               url := "https://claude.ai/chat/xyz789";
               timestamp := "2024-01-01T00:00:00.000Z";
               conversation_id := JStr "conv_1704067200000";
               messages := [{| role := JStr "assistant";
                               content := "Hello world" |}] |})] /\
  existsb isRuntimeSendMessage
    (snd (pageStep Sample.capturing
            (MutationBatch Sample.claudePage Sample.netOk
               (Sample.batchOf [Sample.claudeMessageNode])))) = false.
Proof.
  split; reflexivity.
Qed.

(* ------------------------------------------------------------------ *)
(** ** Faults while a batch is handled *)





(* ------------------------------------------------------------------ *)
(** ** The relay of the background context *)

(** What holds of every ["enrichPrompt"] relay: one request, one reply,
    the listener returns [true] and nothing is thrown; the reply is
    [{status: "error"}] on a network failure or an unparseable body, and
    [{status: "ok", data}] on every response with a parseable body,
    whatever its status. *)
Lemma enrichPrompt_relay (request : JsVal) (net : Network) :
  strictEqStr (getField request "action") "enrichPrompt" = true ->
  completion (backgroundListener request net) = Normal (JBool true) /\
  requests (trace (backgroundListener request net)) =
  [processInteractionRequest (serverPayload request)] /\
  replies (trace (backgroundListener request net)) =
  [match net (processInteractionRequest (serverPayload request)) with
   | NetworkFailure => replyError
   | Responded r =>
       match bodyJson r with
       | Some data => replyOk data
       | None => replyError
       end
   end].
Proof.
  intros H. rewrite backgroundListener_spec, H. repeat split.
Qed.

(** C2, evaluated at the failing input. A server that answers 500 with a
    JSON body makes the ["enrichPrompt"] relay reply [{status: "ok", data}]:
    the handler never looks at [response.ok]. The other cases are as the
    claim has them: a network failure and an unparseable body give
    [{status: "error"}], a 200 with a parseable body gives
    [{status: "ok", data}], and the listener completes normally each time.
    [sendToCortex], which does test [response.ok], resolves to [null] on
    the same 500 response. *)
Theorem relay_reports_ok_on_server_error :
  ok {| status := 500; bodyJson := Some (JObj [("error", JStr "boom")]) |}
  = false /\
  backgroundListener (Sample.enrichMessage "hi") Sample.net500 =
  ([Fetch (processInteractionRequest (serverPayload (Sample.enrichMessage "hi")));
    SendResponse (replyOk (JObj [("error", JStr "boom")]))],
   Normal (JBool true)) /\
  replies (trace (backgroundListener (Sample.enrichMessage "hi") Sample.netDown)) =
  [replyError] /\
  replies (trace (backgroundListener (Sample.enrichMessage "hi") Sample.netGarbled)) =
  [replyError] /\
  replies (trace (backgroundListener (Sample.enrichMessage "hi") Sample.netOk)) =
  [replyOk (JObj [("ack", JBool true)])] /\
  completion (sendToCortex (extractConversationContext Sample.claudePage "claude")
                Sample.net500) = Normal JNull.
Proof.
  repeat split.
Qed.

(** C6, evaluated at the failing input. For the ["pingServer"] message the
    popup sends, the background listener returns [true], which keeps the
    reply channel open, and then performs nothing: no request goes out and
    [sendResponse] is never called, whatever the network does. The popup's
    callback, run without a reply, shows the error status. For
    ["enrichPrompt"] the listener returns [true] and replies once. *)
Theorem pingServer_never_replies (net : Network) :
  backgroundListener pingMessage net = ([], Normal (JBool true)) /\
  replies (trace (backgroundListener pingMessage net)) = [] /\
  popupClick = [SetStatus "Pinging..."; RuntimeSendMessage pingMessage] /\
  popupCallback JUndefined = [SetStatus "Error!"] /\
  completion (backgroundListener (Sample.enrichMessage "hi") net) =
  Normal (JBool true) /\
  length (replies (trace (backgroundListener (Sample.enrichMessage "hi") net))) = 1.
Proof.
  repeat split.
  rewrite backgroundListener_spec. reflexivity.
Qed.

(** C10. For every ["enrichPrompt"] request the listener issues one
    request: a POST to [/process_interaction] whose body has the request's
    [text] as its [text] field and the constant ["ChromeExtension_v2"] as
    its [platform] field. Nothing else of the request, and nothing about
    the page the interaction came from, enters the body. *)
Theorem enrichPrompt_payload (request : JsVal) (net : Network) :
  strictEqStr (getField request "action") "enrichPrompt" = true ->
  exists r,
    requests (trace (backgroundListener request net)) = [r] /\
    req_url r = "http://127.0.0.1:8000/process_interaction" /\
    req_method r = "POST" /\
    req_body r = JObj [("text", getField request "text");
                       ("platform", JStr "ChromeExtension_v2")] /\
    getField (req_body r) "text" = getField request "text" /\
    getField (req_body r) "platform" = JStr "ChromeExtension_v2".
Proof.
  intros H. destruct (enrichPrompt_relay request net H) as (_ & Hr & _).
  exists (processInteractionRequest (serverPayload request)).
  rewrite Hr. repeat split.
Qed.

Lemma enrichPrompt_payload_witness :
  exists r,
    requests (trace (backgroundListener (Sample.enrichMessage "hi") Sample.netOk))
    = [r] /\
    req_url r = "http://127.0.0.1:8000/process_interaction" /\
    req_method r = "POST" /\
    req_body r = JObj [("text", getField (Sample.enrichMessage "hi") "text");
                       ("platform", JStr "ChromeExtension_v2")] /\
    getField (req_body r) "text" = getField (Sample.enrichMessage "hi") "text" /\
    getField (req_body r) "platform" = JStr "ChromeExtension_v2".
Proof.
  apply (enrichPrompt_payload (Sample.enrichMessage "hi") Sample.netOk).
  reflexivity.
Defined.

(* ================================================================== *)
(** * Further properties of the scripts *)

(* ------------------------------------------------------------------ *)
(** ** sendToCortex and the network *)

(** X1. [sendToCortex] issues exactly one request, the POST of the
    snapshot to the ingest endpoint with a JSON content type, and its
    promise never rejects: it resolves to the parsed body on a 2xx response
    whose body parses, and to [null] on a network failure, on any other
    status and on a body that does not parse. *)
Theorem sendToCortex_outcome (data : Context) (net : Network) :
  sendToCortex data net =
  ([Fetch {| req_url := "http://localhost:5000/ingest";
             req_method := "POST";
             req_headers := [("Content-Type", "application/json")];
             req_body := contextToJs data |}],
   Normal match net (ingestRequest data) with
          | NetworkFailure => JNull
          | Responded r =>
              if (200 <=? status r)%Z && (status r <=? 299)%Z then
                match bodyJson r with Some v => v | None => JNull end
              else JNull
          end).
Proof.
  pose proof (sendToCortex_trace data net) as [Ht _].
  pose proof (sendToCortex_value data net) as Hv.
  unfold trace, completion in *.
  destruct (sendToCortex data net) as [t c]. cbn [fst snd] in *.
  subst t c. reflexivity.
Qed.

(** X2. What the watcher does with a batch does not depend on what the
    network answers: the same requests go out and the state is the same
    whether the ingestion service is down, fails or succeeds. There is no
    retry and no memory of a failed delivery. *)
Theorem watcher_ignores_network (st : PageState) (page : Page)
  (mutations : list MutationRecord) (net1 net2 : Network) :
  observerCallback st page mutations net1 =
  observerCallback st page mutations net2 /\
  pageStep st (MutationBatch page net1 mutations) =
  pageStep st (MutationBatch page net2 mutations).
Proof.
  split.
  - rewrite !observerCallback_spec. reflexivity.
  - rewrite !pageStep_batch. reflexivity.
Qed.

(* ------------------------------------------------------------------ *)
(** ** Platform detection and the selector table *)

Lemma detectPlatform_range (w : Location) :
  In (detectPlatform w) ["chatgpt"; "claude"; "perplexity"; "unknown"].
Proof.
  unfold detectPlatform.
  destruct (JsString.includes "chat.openai.com" (hostname w)); [cbn; auto |].
  destruct (JsString.includes "claude.ai" (hostname w)); [cbn; auto |].
  destruct (JsString.includes "perplexity.ai" (hostname w)); cbn; auto.
Qed.

(** X3. The detected platform is one of the four tags, and the selector
    table of the observer has an entry for it exactly when it is not
    ["unknown"]: the guard [if (!selector) return] fires on unknown pages
    and on no other. *)
Theorem selectors_cover_detected (w : Location) :
  In (detectPlatform w) ["chatgpt"; "claude"; "perplexity"; "unknown"] /\
  (assoc (detectPlatform w) selectors = None <-> detectPlatform w = "unknown").
Proof.
  split; [apply detectPlatform_range |].
  pose proof (detectPlatform_range w) as H.
  destruct H as [<- | [<- | [<- | [<- | []]]]]; cbn; split;
    intros H; try discriminate; reflexivity.
Qed.

Lemma selectors_cover_detected_witness :
  detectPlatform Sample.otherLocation = "unknown" /\
  assoc (detectPlatform Sample.perplexityLocation) selectors <> None.
Proof.
  split.
  - apply (proj1 (proj2 (selectors_cover_detected Sample.otherLocation))).
    reflexivity.
  - intros H.
    apply (proj1 (proj2 (selectors_cover_detected Sample.perplexityLocation)))
      in H.
    discriminate.
Defined.

(** X4. Detection is by substring, wherever the substring sits: a host
    that has ["chat.openai.com"] anywhere in it, for instance as a label
    prefix of another domain, is classified ["chatgpt"], and this entry
    wins over the others; a host that has ["claude.ai"] in it and not
    ["chat.openai.com"] is classified ["claude"]. *)
Theorem detectPlatform_substring (w : Location) (pre post : string) :
  (hostname w = (pre ++ "chat.openai.com" ++ post)%string ->
   detectPlatform w = "chatgpt") /\
  (hostname w = (pre ++ "claude.ai" ++ post)%string ->
   JsString.includes "chat.openai.com" (hostname w) = false ->
   detectPlatform w = "claude").
Proof.
  split.
  - intros H. unfold detectPlatform.
    assert (Hi : JsString.includes "chat.openai.com" (hostname w) = true)
      by (apply includes_spec; exists pre, post; exact H).
    rewrite Hi. reflexivity.
  - intros H Hno. unfold detectPlatform. rewrite Hno.
    assert (Hi : JsString.includes "claude.ai" (hostname w) = true)
      by (apply includes_spec; exists pre, post; exact H).
    rewrite Hi. reflexivity.
Qed.

Lemma detectPlatform_substring_witness :
  detectPlatform {| href := "https://chat.openai.com.example.net/";
                    hostname := "chat.openai.com.example.net";
                    pathname := "/" |} = "chatgpt" /\
  detectPlatform {| href := "https://notclaude.ai/";
                    hostname := "notclaude.ai";
                    pathname := "/" |} = "claude".
Proof.
  split.
  - apply (proj1 (detectPlatform_substring
                    {| href := "https://chat.openai.com.example.net/";
                       hostname := "chat.openai.com.example.net";
                       pathname := "/" |} "" ".example.net")).
    reflexivity.
  - apply (proj2 (detectPlatform_substring
                    {| href := "https://notclaude.ai/";
                       hostname := "notclaude.ai";
                       pathname := "/" |} "not" ""));
      reflexivity.
Defined.

(* ------------------------------------------------------------------ *)
(** ** Conversation identifiers *)

Lemma takeId_app (id post : string) :
  allIdChars id = true -> stopsId post = true -> takeId (id ++ post) = id.
Proof.
  intros Hall Hstop. induction id as [|c id IH]; cbn in *.
  - destruct post as [|x post]; cbn in *; [reflexivity |].
    destruct (isIdChar x); [discriminate | reflexivity].
  - apply andb_true_iff in Hall. destruct Hall as [Hc Hall].
    rewrite Hc, (IH Hall). reflexivity.
Qed.

(** Whether the pattern matches at the start of a string is decided by
    its first four characters. *)
Lemma captureAt_prefix (a b : string) :
  4 <= String.length a ->
  JsString.isEmpty (captureAt a) = true ->
  JsString.isEmpty (captureAt (a ++ b)) = true.
Proof.
  intros Hlen Ha.
  destruct (JsString.isEmpty (captureAt (a ++ b))) eqn:E; [reflexivity |].
  exfalso.
  destruct (captureAt_sound _ E) as (post & Hs & Hall & _).
  destruct (allIdChars_head _ E Hall) as (x & rest & Hx & Hid).
  rewrite Hx in Hs. clear E Hall Hx.
  destruct a as [|a1 [|a2 [|a3 [|a4 a']]]]; cbn in Hlen; try lia.
  cbn in Hs. injection Hs as -> -> -> -> _.
  change (String "/" (String "c" (String "/" (String x a'))))
    with ("/c/" ++ String x a')%string in Ha.
  rewrite (captureAt_complete _ _ Hid) in Ha. discriminate.
Qed.

Lemma length_append (a b : string) :
  String.length (a ++ b) = String.length a + String.length b.
Proof.
  induction a as [|c a IH]; cbn; [reflexivity | rewrite IH; reflexivity].
Qed.

(** X5. Parsing inverts path building. If a path is built as
    [pre ++ "/c/" ++ id ++ post] where [id] is a non-empty run of
    identifier characters, [post] does not continue the run and nothing
    in [pre ++ "/c/"] already matches, then the identifier parsed from the
    path is [id]. *)
Theorem matchConversationId_roundtrip (pre id post : string) :
  JsString.isEmpty id = false ->
  allIdChars id = true ->
  stopsId post = true ->
  matchConversationId (pre ++ "/c/") = None ->
  matchConversationId (pre ++ "/c/" ++ id ++ post) = Some id.
Proof.
  intros Hne Hall Hstop.
  assert (Hhere : captureAt ("/c/" ++ id ++ post) = id).
  { unfold captureAt. rewrite prefix_append.
    cbn [JsString.drop String.append]. apply takeId_app; assumption. }
  induction pre as [|c pre IH]; intros Hleft.
  - cbn [String.append matchConversationId].
    change (String "/" (String "c" (String "/" (id ++ post)%string)))
      with ("/c/" ++ id ++ post)%string.
    rewrite Hhere, Hne. reflexivity.
  - change (String c pre ++ "/c/")%string
      with (String c (pre ++ "/c/")%string) in Hleft.
    change (String c pre ++ "/c/" ++ id ++ post)%string
      with (String c (pre ++ "/c/" ++ id ++ post)%string).
    cbn [matchConversationId] in Hleft |- *.
    destruct (JsString.isEmpty (captureAt (String c (pre ++ "/c/")))) eqn:E;
      [| discriminate].
    assert (E' : JsString.isEmpty
                   (captureAt (String c (pre ++ "/c/" ++ id ++ post))) = true).
    { replace (String c (pre ++ "/c/" ++ id ++ post))%string
        with (String c (pre ++ "/c/") ++ (id ++ post))%string
        by (cbn; rewrite append_assoc; reflexivity).
      apply captureAt_prefix; [| exact E].
      cbn. rewrite length_append. cbn. lia. }
    rewrite E'. apply IH. exact Hleft.
Qed.

Lemma matchConversationId_roundtrip_witness :
  matchConversationId ("/share" ++ "/c/" ++ "abc-123" ++ "/edit") =
  Some "abc-123".
Proof.
  apply (matchConversationId_roundtrip "/share" "abc-123" "/edit");
    reflexivity.
Defined.

Lemma ofZ_injective (z1 z2 : Z) : JsString.ofZ z1 = JsString.ofZ z2 -> z1 = z2.
Proof.
  assert (Hnn : forall z, Z.to_int z <> Decimal.Pos Decimal.Nil /\
                          Z.to_int z <> Decimal.Neg Decimal.Nil).
  { intros z. split; intros H;
      pose proof (DecimalZ.of_to z) as Hz; rewrite H in Hz; cbn in Hz;
      subst z; discriminate. }
  unfold JsString.ofZ. intros H.
  pose proof (NilZero.isi (Z.to_int z1) (proj1 (Hnn z1)) (proj2 (Hnn z1))) as H1.
  pose proof (NilZero.isi (Z.to_int z2) (proj1 (Hnn z2)) (proj2 (Hnn z2))) as H2.
  rewrite H in H1. rewrite H1 in H2. injection H2 as H2.
  rewrite <- (DecimalZ.of_to z1), <- (DecimalZ.of_to z2), H2. reflexivity.
Qed.

(** X6. On a path without an identifier segment, two captures get the
    same synthetic identifier only if they read the same millisecond from
    the clock; whatever the platform tags and documents are. *)
Theorem synthetic_id_distinct (page1 page2 : Page) (tag1 tag2 : string) :
  ~ hasIdSegment (pathname (location page1)) ->
  ~ hasIdSegment (pathname (location page2)) ->
  conversation_id (extractConversationContext page1 tag1) =
  conversation_id (extractConversationContext page2 tag2) ->
  dateNow page1 = dateNow page2.
Proof.
  intros H1 H2. rewrite !conversation_id_match.
  apply matchConversationId_none in H1, H2. rewrite H1, H2.
  intros H. injection H as H. apply ofZ_injective. exact H.
Qed.

Lemma synthetic_id_distinct_witness :
  dateNow Sample.claudePage = dateNow Sample.otherPage.
Proof.
  apply (synthetic_id_distinct Sample.claudePage Sample.otherPage
           "claude" "unknown").
  - apply matchConversationId_none. reflexivity.
  - apply matchConversationId_none. reflexivity.
  - reflexivity.
Defined.

Lemma allIdChars_not_synthetic (id suffix : string) :
  allIdChars id = true -> id <> ("conv_" ++ suffix)%string.
Proof.
  intros Hall ->. cbn in Hall. discriminate.
Qed.

(** X7. A parsed identifier and a synthetic one never coincide: the
    identifier of a capture on a path with an identifier segment differs
    from the identifier of any capture on a path without one (a parsed
    identifier has no underscore, a synthetic one starts with ["conv_"]). *)
Theorem parsed_id_not_synthetic (page1 page2 : Page) (tag1 tag2 : string) :
  hasIdSegment (pathname (location page1)) ->
  ~ hasIdSegment (pathname (location page2)) ->
  conversation_id (extractConversationContext page1 tag1) <>
  conversation_id (extractConversationContext page2 tag2).
Proof.
  intros H1 H2. rewrite !conversation_id_match.
  apply matchConversationId_none in H2. rewrite H2.
  destruct (matchConversationId (pathname (location page1))) as [id|] eqn:E.
  - destruct (matchConversationId_sound _ E) as (_ & _ & _ & _ & Hall & _).
    intros H. injection H as H. revert H.
    apply allIdChars_not_synthetic. exact Hall.
  - apply matchConversationId_none in E. contradiction.
Qed.

Lemma parsed_id_not_synthetic_witness :
  conversation_id (extractConversationContext Sample.chatgptPage "chatgpt") <>
  conversation_id (extractConversationContext Sample.claudePage "claude").
Proof.
  apply (parsed_id_not_synthetic Sample.chatgptPage Sample.claudePage).
  - exists "", "x"%char, "yz789". split; reflexivity.
  - apply matchConversationId_none. reflexivity.
Defined.

(* ------------------------------------------------------------------ *)
(** ** The marker test of the observer *)

Lemma find_existsb {A : Type} (p : A -> bool) (l : list A) :
  existsb p l = match find p l with Some _ => true | None => false end.
Proof.
  induction l as [|x l IH]; cbn; [reflexivity |].
  destruct (p x); [reflexivity | exact IH].
Qed.

Lemma nonelement_inert (sel : Selector) (node : Node) :
  Dom.nodeType node <> 1%Z ->
  Dom.matches sel node = false /\ Dom.descendants node = [].
Proof.
  destruct node; cbn; intros H; [contradiction | auto | auto].
Qed.

Lemma find_first {A : Type} (p : A -> bool) (l : list A) (x : A) :
  find p l = Some x ->
  exists before after,
    l = before ++ x :: after /\ p x = true /\
    forall d, In d before -> p d = false.
Proof.
  induction l as [|y l IH]; cbn; [discriminate |].
  destruct (p y) eqn:E.
  - intros H. injection H as <-. exists [], l. repeat split; auto.
    intros d [].
  - intros H. destruct (IH H) as (before & after & -> & Hx & Hb).
    exists (y :: before), after. repeat split; auto.
    intros d [<- | Hd]; [exact E | apply Hb, Hd].
Qed.

(** X8. The marker test finds an element exactly when the added node is,
    or has among its descendants, an element matching the selector; text
    and comment nodes never qualify. What it finds matches the selector
    and is the first matching descendant in document order when there is
    one (no descendant before it matches), the node itself only when no
    descendant matches. *)
Theorem marker_test_spec (sel : Selector) (node : Node) :
  qualifyingNode sel node =
  existsb (Dom.matches sel) (node :: Dom.descendants node) /\
  (forall el,
      responseElementOf sel node = Some el ->
      Dom.matches sel el = true /\
      ((exists before after,
          Dom.descendants node = before ++ el :: after /\
          forall d, In d before -> Dom.matches sel d = false) \/
       (el = node /\
        forall d, In d (Dom.descendants node) -> Dom.matches sel d = false))) /\
  (forall el before after,
      Dom.descendants node = before ++ el :: after ->
      Dom.matches sel el = true ->
      (forall d, In d before -> Dom.matches sel d = false) ->
      responseElementOf sel node = Some el) /\
  (Dom.nodeType node <> 1%Z -> qualifyingNode sel node = false).
Proof.
  assert (Hq : qualifyingNode sel node =
               existsb (Dom.matches sel) (node :: Dom.descendants node)).
  { unfold qualifyingNode, responseElementOf, Dom.querySelector.
    cbn [existsb]. rewrite find_existsb.
    destruct node as [tag cls attrs cs | d | d].
    - cbn [Dom.nodeType Z.eqb Pos.eqb andb].
      destruct (find (Dom.matches sel) (Dom.descendants (Elem tag cls attrs cs)));
        [rewrite orb_true_r; reflexivity |].
      rewrite orb_false_r.
      destruct (Dom.matches sel (Elem tag cls attrs cs)); reflexivity.
    - reflexivity.
    - reflexivity. }
  split; [exact Hq | split; [| split]].
  - intros el. unfold responseElementOf, Dom.querySelector.
    destruct (find (Dom.matches sel) (Dom.descendants node)) as [e|] eqn:E.
    + intros H. injection H as <-.
      destruct (find_first _ _ E) as (before & after & Hl & He & Hb).
      split; [exact He |]. left. exists before, after. auto.
    + destruct (Dom.matches sel node) eqn:Em; [| discriminate].
      intros H. injection H as <-. split; [exact Em |].
      right. split; [reflexivity |].
      intros d Hd. exact (find_none _ _ E d Hd).
  - intros el before after Hl He Hb.
    unfold responseElementOf, Dom.querySelector. rewrite Hl.
    rewrite (find_first_listed (Dom.matches sel) before el after Hb He).
    reflexivity.
  - intros Hty. rewrite Hq.
    destruct (nonelement_inert sel node Hty) as [Hm Hd].
    rewrite Hd. cbn. rewrite Hm. reflexivity.
Qed.

Lemma marker_test_spec_witness :
  (Dom.matches (SelClass "markdown")
     (Elem "p" ["markdown"] [] [TextNode "first"]) = true /\
   ((exists before after,
       Dom.descendants Sample.twoAnswersNode =
       before ++ Elem "p" ["markdown"] [] [TextNode "first"] :: after /\
       forall d, In d before -> Dom.matches (SelClass "markdown") d = false) \/
    (Elem "p" ["markdown"] [] [TextNode "first"] = Sample.twoAnswersNode /\
     forall d, In d (Dom.descendants Sample.twoAnswersNode) ->
               Dom.matches (SelClass "markdown") d = false))) /\
  responseElementOf (SelClass "markdown") Sample.twoAnswersNode =
  Some (Elem "p" ["markdown"] [] [TextNode "first"]) /\
  qualifyingNode sel_message_text (TextNode "Hello world") = false.
Proof.
  split; [| split].
  - apply (proj1 (proj2 (marker_test_spec (SelClass "markdown")
                           Sample.twoAnswersNode))).
    reflexivity.
  - apply (proj1 (proj2 (proj2 (marker_test_spec (SelClass "markdown")
                                  Sample.twoAnswersNode)))
             (Elem "p" ["markdown"] [] [TextNode "first"])
             [Elem "span" [] [] [TextNode "intro"]; TextNode "intro"]
             [TextNode "first";
              Elem "p" ["markdown"] [] [TextNode "second"];
              TextNode "second"]).
    + reflexivity.
    + reflexivity.
    + intros d [<- | [<- | []]]; reflexivity.
  - apply (proj2 (proj2 (proj2 (marker_test_spec sel_message_text
                                  (TextNode "Hello world"))))).
    cbn. discriminate.
Defined.

(* ------------------------------------------------------------------ *)
(** ** Size of a snapshot *)

Lemma flat_map_length_le {A B : Type} (f : A -> list B) (l : list A) :
  (forall x, length (f x) <= 1) -> length (flat_map f l) <= length l.
Proof.
  intros Hf. induction l as [|x l IH]; cbn; [lia |].
  rewrite length_app. specialize (Hf x). lia.
Qed.

Lemma chatgptMessage_length (msg : Node) : length (chatgptMessage msg) <= 1.
Proof.
  unfold chatgptMessage. destruct (negb _); cbn; lia.
Qed.

Lemma claudeMessage_length (msg : Node) : length (claudeMessage msg) <= 1.
Proof.
  unfold claudeMessage. destruct (negb _); cbn; lia.
Qed.

(** X9. A message element contributes at most one message, so a snapshot
    never has more messages than the page has message elements of the
    platform: elements with [data-message-author-role] on chatgpt, elements
    with [data-testid="message"] on claude; and none at all for any other
    tag. *)
Theorem messages_bounded (page : Page) (tag : string) :
  length (messages (extractConversationContext page tag)) <=
  if String.eqb tag "chatgpt" then
    length (Dom.querySelectorAll sel_author_role (document page))
  else if String.eqb tag "claude" then
    length (Dom.querySelectorAll sel_message (document page))
  else 0.
Proof.
  rewrite extract_messages.
  destruct (String.eqb tag "chatgpt").
  - apply flat_map_length_le, chatgptMessage_length.
  - destruct (String.eqb tag "claude").
    + apply flat_map_length_le, claudeMessage_length.
    + cbn. lia.
Qed.

(** X10. On a page detected as perplexity every request the observer
    sends carries an empty [messages] array: the observer has a response
    marker for the platform, the extractor has no branch for it. *)
Theorem perplexity_snapshots_empty (st : PageState) (page : Page)
  (mutations : list MutationRecord) (net : Network) (r : HttpRequest) :
  detectPlatform (location page) = "perplexity" ->
  In r (requests (trace (observerCallback st page mutations net))) ->
  getField (req_body r) "messages" = JArr [].
Proof.
  intros Hp. rewrite observerCallback_spec. cbn [trace fst].
  destruct (truthy (isCapturing st)); [| contradiction].
  unfold captureTrace. rewrite Hp. cbn [assoc selectors String.eqb Ascii.eqb Bool.eqb].
  rewrite requests_map_Fetch. intros H. apply in_map_iff in H.
  destruct H as (_ & <- & _). reflexivity.
Qed.

Lemma perplexity_snapshots_empty_witness :
  getField (req_body (ingestRequest
                        (extractConversationContext Sample.perplexityPage
                           "perplexity"))) "messages" = JArr [].
Proof.
  apply (perplexity_snapshots_empty Sample.capturing Sample.perplexityPage
           (Sample.batchOf [Sample.proseNode]) Sample.netOk).
  - reflexivity.
  - cbn. auto.
Defined.

(* ------------------------------------------------------------------ *)
(** ** Runs of the page context *)

Lemma pageRun_app (st : PageState) (evs1 evs2 : list PageEvent) :
  pageRun st (evs1 ++ evs2) =
  (fst (pageRun (fst (pageRun st evs1)) evs2),
   snd (pageRun st evs1) ++ snd (pageRun (fst (pageRun st evs1)) evs2)).
Proof.
  revert st. induction evs1 as [|ev evs1 IH]; intros st.
  - change (pageRun st []) with (st, @nil Effect). cbn [app fst snd].
    destruct (pageRun st evs2); reflexivity.
  - cbn [app]. rewrite !pageRun_cons, IH. cbn [fst snd].
    rewrite app_assoc. reflexivity.
Qed.

Lemma pageStep_control (st : PageState) (request : JsVal) :
  pageStep st (ControlMessage request) =
  if isToggle request
  then ({| isCapturing := getField request "enabled" |}, [SendResponse ackOk])
  else (st, []).
Proof.
  reflexivity.
Qed.

Lemma pageRun_no_toggle (st : PageState) (evs : list PageEvent) :
  existsb isToggleEvent evs = false -> fst (pageRun st evs) = st.
Proof.
  induction evs as [|ev evs IH]; intros H.
  - reflexivity.
  - cbn [existsb] in H. apply orb_false_iff in H. destruct H as [Hev Hrest].
    rewrite pageRun_cons. cbn [fst].
    destruct ev as [request | page net mutations].
    + rewrite pageStep_control. cbn in Hev. rewrite Hev. cbn [fst].
      apply IH, Hrest.
    + rewrite pageStep_batch. cbn [fst]. apply IH, Hrest.
Qed.

(** X11. The last toggle wins. After any run of control messages and
    mutation batches, the capture flag is the [enabled] value of the last
    toggle message of the run; a run without a toggle message leaves the
    flag as it was. Neither batches, nor other messages, nor earlier
    toggles have any say. *)
Theorem last_toggle_wins (st : PageState) (evs : list PageEvent) :
  (existsb isToggleEvent evs = false -> fst (pageRun st evs) = st) /\
  (forall before request after,
      evs = before ++ ControlMessage request :: after ->
      isToggle request = true ->
      existsb isToggleEvent after = false ->
      isCapturing (fst (pageRun st evs)) = getField request "enabled").
Proof.
  split; [apply pageRun_no_toggle |].
  intros before request after -> Htog Hafter.
  rewrite pageRun_app. cbn [fst]. rewrite pageRun_cons. cbn [fst].
  rewrite pageStep_control, Htog. cbn [fst].
  rewrite (pageRun_no_toggle _ _ Hafter). reflexivity.
Qed.

Lemma last_toggle_wins_witness :
  fst (pageRun Sample.capturing
         [MutationBatch Sample.claudePage Sample.netDown
            (Sample.batchOf [Sample.claudeMessageNode]);
          ControlMessage pingMessage]) = Sample.capturing /\
  isCapturing
    (fst (pageRun initialPageState
            [ControlMessage (Sample.toggleMessage true);
             ControlMessage (Sample.toggleMessage false);
             MutationBatch Sample.claudePage Sample.netOk
               (Sample.batchOf [Sample.claudeMessageNode])])) =
  getField (Sample.toggleMessage false) "enabled".
Proof.
  split.
  - apply (proj1 (last_toggle_wins Sample.capturing
                    [MutationBatch Sample.claudePage Sample.netDown
                       (Sample.batchOf [Sample.claudeMessageNode]);
                     ControlMessage pingMessage])).
    reflexivity.
  - apply (proj2 (last_toggle_wins initialPageState
                    [ControlMessage (Sample.toggleMessage true);
                     ControlMessage (Sample.toggleMessage false);
                     MutationBatch Sample.claudePage Sample.netOk
                       (Sample.batchOf [Sample.claudeMessageNode])])
             [ControlMessage (Sample.toggleMessage true)]
             (Sample.toggleMessage false)
             [MutationBatch Sample.claudePage Sample.netOk
                (Sample.batchOf [Sample.claudeMessageNode])]);
      reflexivity.
Defined.

Lemma replies_app (t1 t2 : list Effect) :
  replies (t1 ++ t2) = replies t1 ++ replies t2.
Proof.
  induction t1 as [|e t1 IH]; cbn; [reflexivity |].
  destruct e; cbn; rewrite IH; reflexivity.
Qed.

Lemma captureTrace_no_reply (page : Page) (mutations : list MutationRecord) :
  replies (captureTrace page mutations) = [].
Proof.
  unfold captureTrace.
  destruct (assoc (detectPlatform (location page)) selectors) as [sel|];
    [| reflexivity].
  induction (filter (qualifyingNode sel) (batchNodes mutations)) as [|n l IH];
    cbn; [reflexivity | exact IH].
Qed.

(** X12. The page context acknowledges every toggle message, once, with
    [{status: "ok"}], and sends no other reply: in any run the replies are
    one acknowledgment per toggle message, whatever the batches and the
    other messages of the run are. *)
Theorem one_ack_per_toggle (st : PageState) (evs : list PageEvent) :
  replies (snd (pageRun st evs)) =
  map (fun _ => ackOk) (filter isToggleEvent evs).
Proof.
  revert st. induction evs as [|ev evs IH]; intros st.
  - reflexivity.
  - rewrite pageRun_cons. cbn [snd]. rewrite replies_app, IH.
    destruct ev as [request | page net mutations]; cbn [filter isToggleEvent].
    + rewrite pageStep_control. destruct (isToggle request); reflexivity.
    + rewrite pageStep_batch. cbn [snd].
      destruct (truthy (isCapturing st));
        [rewrite captureTrace_no_reply |]; reflexivity.
Qed.

(** X13. Capture never starts on its own. From a state whose flag is
    off, a run in which no toggle message carries a truthy [enabled]
    value sends no request at all, however many qualifying batches it
    delivers, and ends with the flag still off. *)
Theorem capture_stays_off (st : PageState) (evs : list PageEvent) :
  truthy (isCapturing st) = false ->
  existsb turnsOn evs = false ->
  requests (snd (pageRun st evs)) = [] /\
  truthy (isCapturing (fst (pageRun st evs))) = false.
Proof.
  revert st. induction evs as [|ev evs IH]; intros st Hoff Hno.
  - split; [reflexivity | exact Hoff].
  - cbn [existsb] in Hno. apply orb_false_iff in Hno. destruct Hno as [Hev Hrest].
    rewrite pageRun_cons. cbn [fst snd].
    destruct ev as [request | page net mutations].
    + rewrite pageStep_control. cbn [turnsOn] in Hev.
      destruct (isToggle request); cbn [fst snd andb] in *.
      * destruct (IH {| isCapturing := getField request "enabled" |} Hev Hrest)
          as [Hr Hf].
        split; [exact Hr | exact Hf].
      * exact (IH st Hoff Hrest).
    + rewrite pageStep_batch, Hoff. cbn [fst snd app].
      exact (IH st Hoff Hrest).
Qed.

Lemma capture_stays_off_witness :
  requests (snd (pageRun initialPageState
                   [MutationBatch Sample.claudePage Sample.netOk
                      (Sample.batchOf [Sample.claudeMessageNode]);
                    ControlMessage (Sample.toggleMessage false);
                    ControlMessage pingMessage;
                    MutationBatch Sample.claudePage Sample.netOk
                      (Sample.batchOf [Sample.claudeMessageNode])])) = [] /\
  truthy (isCapturing
            (fst (pageRun initialPageState
                    [MutationBatch Sample.claudePage Sample.netOk
                       (Sample.batchOf [Sample.claudeMessageNode]);
                     ControlMessage (Sample.toggleMessage false);
                     ControlMessage pingMessage;
                     MutationBatch Sample.claudePage Sample.netOk
                       (Sample.batchOf [Sample.claudeMessageNode])]))) = false.
Proof.
  apply (capture_stays_off initialPageState
           [MutationBatch Sample.claudePage Sample.netOk
              (Sample.batchOf [Sample.claudeMessageNode]);
            ControlMessage (Sample.toggleMessage false);
            ControlMessage pingMessage;
            MutationBatch Sample.claudePage Sample.netOk
              (Sample.batchOf [Sample.claudeMessageNode])]);
    reflexivity.
Defined.

(** X14. A toggle message that has no [enabled] property switches capture
    off, and is acknowledged like any other: the flag becomes [undefined],
    and the batch that follows sends nothing, whatever the flag was
    before. *)
Theorem toggle_without_enabled (st : PageState)
  (fields : list (string * JsVal)) (page : Page) (net : Network)
  (mutations : list MutationRecord) :
  assoc "action" fields = Some (JStr "toggle") ->
  assoc "enabled" fields = None ->
  pageRun st [ControlMessage (JObj fields); MutationBatch page net mutations] =
  ({| isCapturing := JUndefined |}, [SendResponse ackOk]).
Proof.
  intros Ha He. rewrite !pageRun_cons.
  rewrite pageStep_control. unfold isToggle, getField. rewrite Ha, He.
  cbn [strictEqStr String.eqb Ascii.eqb Bool.eqb fst snd].
  rewrite pageStep_batch. reflexivity.
Qed.

Lemma toggle_without_enabled_witness :
  pageRun Sample.capturing
    [ControlMessage (JObj [("action", JStr "toggle")]);
     MutationBatch Sample.claudePage Sample.netOk
       (Sample.batchOf [Sample.claudeMessageNode])] =
  ({| isCapturing := JUndefined |}, [SendResponse ackOk]).
Proof.
  apply (toggle_without_enabled Sample.capturing [("action", JStr "toggle")]);
    reflexivity.
Defined.

(* ------------------------------------------------------------------ *)
(** ** The two listeners and the popup *)

(** X15. The background listener throws a [TypeError], having done
    nothing, when the message is [null] or [undefined]. For every other
    message and every behaviour of the network it completes without
    throwing and returns [true] or [undefined], and when it returns
    [undefined] it has done nothing. In all cases it issues at most one
    request and never sends more replies than it issued requests. *)
Theorem backgroundListener_bounds (request : JsVal) (net : Network) :
  (isNullish request = true ->
   backgroundListener request net = ([], Throw (nullishError request))) /\
  (isNullish request = false ->
   completion (backgroundListener request net) = Normal (JBool true) \/
   (completion (backgroundListener request net) = Normal JUndefined /\
    trace (backgroundListener request net) = [])) /\
  length (requests (trace (backgroundListener request net))) <= 1 /\
  length (replies (trace (backgroundListener request net))) <=
  length (requests (trace (backgroundListener request net))).
Proof.
  rewrite backgroundListener_spec. split; [| split].
  - intros Hn. rewrite !(nullish_no_action _ _ Hn), Hn. reflexivity.
  - intros Hn. rewrite Hn.
    destruct (strictEqStr (getField request "action") "enrichPrompt");
      [cbn; auto |].
    destruct (strictEqStr (getField request "action") "pingServer"); cbn; auto.
  - destruct (strictEqStr (getField request "action") "enrichPrompt");
      [cbn; auto |].
    destruct (strictEqStr (getField request "action") "pingServer");
      [cbn; auto |].
    destruct (isNullish request); cbn; auto.
Qed.

Lemma backgroundListener_bounds_witness :
  backgroundListener JNull Sample.netOk =
  ([], Throw "TypeError: Cannot read properties of null") /\
  (completion (backgroundListener (Sample.toggleMessage true) Sample.netDown) =
   Normal (JBool true) \/
   (completion (backgroundListener (Sample.toggleMessage true) Sample.netDown) =
    Normal JUndefined /\
    trace (backgroundListener (Sample.toggleMessage true) Sample.netDown) = [])).
Proof.
  split.
  - apply (proj1 (backgroundListener_bounds JNull Sample.netOk)). reflexivity.
  - apply (proj1 (proj2 (backgroundListener_bounds
                           (Sample.toggleMessage true) Sample.netDown))).
    reflexivity.
Defined.

Lemma strictEqStr_eq (v : JsVal) (lit : string) :
  strictEqStr v lit = true -> v = JStr lit.
Proof.
  destruct v; cbn; try discriminate. intros H.
  apply String.eqb_eq in H. rewrite H. reflexivity.
Qed.

(** X16. No message is handled by both listeners: a message the control
    listener of the page reacts to (a toggle) is ignored by the background
    listener, which does nothing and returns [undefined]; and a message the
    background listener keeps the channel open for leaves the page context
    untouched and unanswered. *)
Theorem listeners_disjoint (st : PageState) (request : JsVal) (net : Network) :
  (isToggle request = true ->
   backgroundListener request net = ([], Normal JUndefined)) /\
  (completion (backgroundListener request net) = Normal (JBool true) ->
   controlListener st request = (st, [])).
Proof.
  split.
  - intros H. apply strictEqStr_eq in H.
    rewrite backgroundListener_spec, H.
    destruct request; try discriminate H. reflexivity.
  - rewrite backgroundListener_spec. unfold controlListener.
    destruct (strictEqStr (getField request "action") "enrichPrompt") eqn:E1.
    + intros _. apply strictEqStr_eq in E1. rewrite E1. reflexivity.
    + destruct (strictEqStr (getField request "action") "pingServer") eqn:E2.
      * intros _. apply strictEqStr_eq in E2. rewrite E2. reflexivity.
      * destruct (isNullish request); cbn; discriminate.
Qed.

Lemma listeners_disjoint_witness :
  backgroundListener (Sample.toggleMessage true) Sample.netOk =
  ([], Normal JUndefined) /\
  controlListener Sample.capturing (Sample.enrichMessage "hi") =
  (Sample.capturing, []).
Proof.
  split.
  - apply (proj1 (listeners_disjoint Sample.capturing
                    (Sample.toggleMessage true) Sample.netOk)).
    reflexivity.
  - apply (proj2 (listeners_disjoint Sample.capturing
                    (Sample.enrichMessage "hi") Sample.netOk)).
    reflexivity.
Defined.

(** X17. The popup shows "Success!" exactly when the reply it is called
    back with is an object whose [status] property is the string ["ok"];
    for every other value, a missing reply ([undefined]) and [null]
    included, it shows "Error!" and does not fault. *)
Theorem popupCallback_spec (response : JsVal) :
  (popupCallback response = [SetStatus "Success!"] <->
   exists fields, response = JObj fields /\
                  assoc "status" fields = Some (JStr "ok")) /\
  (popupCallback response = [SetStatus "Success!"] \/
   popupCallback response = [SetStatus "Error!"]).
Proof.
  unfold popupCallback. split.
  - split.
    + destruct (truthy response && strictEqStr (getField response "status") "ok")
        eqn:E; [| discriminate].
      intros _. apply andb_true_iff in E. destruct E as [_ E].
      apply strictEqStr_eq in E.
      destruct response as [| | b | z | s | items | fields]; cbn in E;
        try discriminate.
      exists fields. split; [reflexivity |].
      destruct (assoc "status" fields) as [v|]; [| discriminate].
      rewrite E. reflexivity.
    + intros (fields & -> & Hs). cbn. rewrite Hs. reflexivity.
  - destruct (truthy response && strictEqStr (getField response "status") "ok");
      auto.
Qed.

Lemma popupCallback_spec_witness :
  popupCallback (replyOk JNull) = [SetStatus "Success!"] /\
  ~ (exists fields, JUndefined = JObj fields /\
                    assoc "status" fields = Some (JStr "ok")).
Proof.
  split.
  - apply (proj2 (proj1 (popupCallback_spec (replyOk JNull)))).
    exists [("status", JStr "ok"); ("data", JNull)]. split; reflexivity.
  - intros H. apply (proj2 (proj1 (popupCallback_spec JUndefined))) in H.
    discriminate.
Defined.
